(** * SLA metrics of the analytics page (src/pages/Analytics.tsx)

    A shallow embedding of the computation part of the [Analytics]
    component: the SLA target table, the per-ticket SLA verdict, the
    per-analyst rollup, the creation-window filter and the overall
    statistics, followed by the properties proved about them.

    Numbers.  Counts and minute differences are integers ([Z]).  The
    per-analyst running means and the percentages are embedded as exact
    rationals ([Q]); rounding of doubles is not modelled, so only
    properties that rounding keeps are stated about them (equalities
    between the same operations, bounds).  The overall averages and the
    share captions are single quotients of two integers and keep what a
    JavaScript division can give besides a number: [NaN] and the
    infinities.

    Instants.  A timestamp column reaches the page as an ISO-8601 string
    and is used only through [new Date(s)]; the embedding keeps the time
    value of that date (milliseconds since the epoch, [Z]), so every
    instant is a valid date.  A nullable timestamp is an [option]: the
    source tests these fields by truthiness only, and a timestamp string is
    never empty.

    Strings.  Identities, priorities and names stay strings, nullable ones
    are [option string], and the source's truthiness tests on them are
    kept: [null] and the empty string are both falsy.

    Loading.  The embedding starts from the rows of a successful query; on
    an error or an empty result the source leaves its state as it was. *)

From Stdlib Require Import ZArith QArith Qround List String Bool Lia.
From Stdlib Require Import DecimalString Permutation Lqa.
Import ListNotations.

Local Open Scope Z_scope.

(** ** JavaScript helpers *)

Module Js.

(** Truthiness of a [string | null] value: [null] and the empty string
    are falsy. *)
Definition truthy (v : option string) : bool :=
  match v with
  | Some s => negb (String.eqb s EmptyString)
  | None => false
  end.

(** [v || d] on a [string | null] left operand. *)
Definition or_else (v : option string) (d : string) : string :=
  match v with
  | Some s => if String.eqb s EmptyString then d else s
  | None => d
  end.

(** [a === b] where [a : string | null] and [b : string]. *)
Definition strict_eq (a : option string) (b : string) : bool :=
  match a with
  | Some s => String.eqb s b
  | None => false
  end.

(** [a === b] where [a : string | null] and [b : string | undefined]
    ([null === undefined] is false). *)
Definition strict_eq_opt (a b : option string) : bool :=
  match a, b with
  | Some s, Some s' => String.eqb s s'
  | _, _ => false
  end.

(** [xs.length] *)
Definition length {A : Type} (xs : list A) : Z := Z.of_nat (List.length xs).

End Js.

(** ** Time values and the date helpers the page calls *)

Module Dates.

Definition msPerDay : Z := 86400000.
Definition msPerMinute : Z := 60000.

(** ECMAScript [Day(t)], [MakeTime] and [MakeDate]. *)
Definition Day (t : Z) : Z := t / msPerDay.
Definition MakeTime (h m s ms : Z) : Z := h * 3600000 + m * 60000 + s * 1000 + ms.
Definition MakeDate (day time : Z) : Z := day * msPerDay + time.

(** [d.setUTCHours(h, m, s, ms)]: the UTC calendar day of [d] is kept,
    the time within the day is replaced. *)
Definition setUTCHours (d h m s ms : Z) : Z := MakeDate (Day d) (MakeTime h m s ms).

(** date-fns [differenceInMinutes(dateLeft, dateRight)]: the millisecond
    difference divided by 60000 and truncated toward zero. *)
Definition differenceInMinutes (dateLeft dateRight : Z) : Z :=
  Z.quot (dateLeft - dateRight) msPerMinute.

(** Days from 1970-01-01 to the civil date [y]-[m]-[d] (proleptic
    Gregorian calendar), and the time value of the date-only ISO string
    [yyyy-MM-dd], which [new Date] reads as UTC midnight. *)
Definition days_from_civil (y m d : Z) : Z :=
  let y' := if m <=? 2 then y - 1 else y in
  let era := y' / 400 in
  let yoe := y' - era * 400 in
  let mp := (m + 9) mod 12 in
  let doy := (153 * mp + 2) / 5 + d - 1 in
  let doe := yoe * 365 + yoe / 4 - yoe / 100 + doy in
  era * 146097 + doe - 719468.

Definition utc (y mo d h mi s ms : Z) : Z :=
  MakeDate (days_from_civil y mo d) (MakeTime h mi s ms).

Definition date_only (y mo d : Z) : Z := utc y mo d 0 0 0 0.

End Dates.

(** ** JavaScript numbers *)

Module Num.

(** What a division of two integers can be in JavaScript: a finite
    quotient, [NaN] for [0 / 0], an infinity for [a / 0]. *)
Inductive JsNumber := Finite (q : Q) | NaN | Infinity (negative : bool).

(** [a / b] on two integers ([b] is never the negative zero here). *)
Definition div (a b : Z) : JsNumber :=
  if b =? 0 then (if a =? 0 then NaN else Infinity (a <? 0))
  else Finite (inject_Z a / inject_Z b).

(** [x * 100] *)
Definition times100 (x : JsNumber) : JsNumber :=
  match x with
  | Finite q => Finite (q * 100)
  | NaN => NaN
  | Infinity s => Infinity s
  end.

(** [x || 0]: [NaN] and zero are falsy. *)
Definition or_zero (x : JsNumber) : JsNumber :=
  match x with
  | Finite q => if Qeq_bool q 0 then Finite 0 else Finite q
  | NaN => Finite 0
  | Infinity s => Infinity s
  end.

Definition Qlt_bool (x y : Q) : bool := negb (Qle_bool y x).

(** [Math.floor], [Math.round] (halves go up) and the remainder [x % y],
    which has the sign of [x], on exact rationals. *)
Definition Math_floor (x : Q) : Z := Qfloor x.
Definition Math_round (x : Q) : Z := Qfloor (x + (1 # 2)).
Definition trunc (x : Q) : Z := Z.quot (Qnum x) (Zpos (Qden x)).
Definition rem (x y : Q) : Q := x - y * inject_Z (trunc (x / y)).

(** The decimal text of an integer, as a template literal prints it. *)
Definition toString (n : Z) : string := NilZero.string_of_int (Z.to_int n).

End Num.

(** ** Records *)

(** [interface TicketWithTimes].  [ticket_statuses] and [profiles] are the
    joined rows, reduced to their single column. *)
Record TicketWithTimes := mkTicket {
  id : string;
  title : string;
  created_at : Z;
  updated_at : Z;
  first_response_at : option Z;
  closed_at : option Z;
  assigned_to : option string;
  status_id : option string;
  priority : option string;
  ticket_statuses : option string;
  profiles : option string
}.

(** [interface AnalystMetrics] *)
Record AnalystMetrics := mkMetrics {
  analyst_id : string;
  analyst_name : string;
  total_tickets : Z;
  avg_response_time : Q;
  avg_resolution_time : Q;
  resolved_tickets : Z;
  sla_response_compliance : Q;
  sla_resolution_compliance : Q
}.

(** [type AppRole = 'admin' | 'analyst' | 'user'] (contexts/AuthContext.tsx) *)
Inductive AppRole := admin | analyst | user.

Inductive MetricKind := response | resolution.

(** ** The SLA target table *)

(** One row of [SLA_TARGETS]: an object literal with exactly these four own
    properties. *)
Record SlaRow := mkRow { urgent : Z; high : Z; medium : Z; low : Z }.

Definition SLA_TARGETS (type : MetricKind) : SlaRow :=
  match type with
  | response => {| urgent := 30; high := 60; medium := 240; low := 480 |}
  | resolution => {| urgent := 240; high := 480; medium := 1440; low := 2880 |}
  end.

(** The keys of a row. *)
Definition sla_keys : list string := ["urgent"; "high"; "medium"; "low"]%string.

(** The members that every object literal inherits from
    [Object.prototype].  Eleven are functions and [__proto__] is the
    prototype object itself: all of them are truthy. *)
Definition Object_prototype_members : list string :=
  ["constructor"; "__defineGetter__"; "__defineSetter__"; "hasOwnProperty";
   "__lookupGetter__"; "__lookupSetter__"; "isPrototypeOf";
   "propertyIsEnumerable"; "toString"; "valueOf"; "__proto__";
   "toLocaleString"]%string.

(** What [row[p]] evaluates to when it is not [undefined]: the minutes of
    an own key, or the inherited member of that name.  [getSlaTarget] is
    declared to return a number, but it returns whatever the lookup gave. *)
Inductive SlaTarget := Minutes (n : Z) | Inherited (name : string).

(** [row[p]] for a computed key: own keys first, then the prototype,
    [undefined] ([None]) for any other string. *)
Definition row_get (r : SlaRow) (p : string) : option SlaTarget :=
  if String.eqb p "urgent" then Some (Minutes (urgent r))
  else if String.eqb p "high" then Some (Minutes (high r))
  else if String.eqb p "medium" then Some (Minutes (medium r))
  else if String.eqb p "low" then Some (Minutes (low r))
  else if existsb (String.eqb p) Object_prototype_members then Some (Inherited p)
  else None.

(** [v || d]: [undefined] and the number [0] are falsy, an inherited
    member is truthy. *)
Definition target_or_else (v : option SlaTarget) (d : Z) : SlaTarget :=
  match v with
  | Some (Minutes n) => if n =? 0 then Minutes d else Minutes n
  | Some (Inherited name) => Inherited name
  | None => Minutes d
  end.

Definition getSlaTarget (priority : option string) (type : MetricKind) : SlaTarget :=
  let p := Js.or_else priority "medium" in
  target_or_else (row_get (SLA_TARGETS type) p) (medium (SLA_TARGETS type)).

(** [time <= target]: against a number the comparison of the two numbers;
    an inherited function or object converts to [NaN], and every
    comparison with [NaN] is false. *)
Definition within_target (time : Z) (target : SlaTarget) : bool :=
  match target with
  | Minutes n => time <=? n
  | Inherited _ => false
  end.

(** ** Per-ticket verdict *)

(** [boolean | null]: [None] is the source's [null]. *)
Definition isWithinSla (ticket : TicketWithTimes) (type : MetricKind) : option bool :=
  let target := getSlaTarget (priority ticket) type in
  match type with
  | response =>
      match first_response_at ticket with
      | None => None
      | Some fr =>
          let responseTime := Dates.differenceInMinutes fr (created_at ticket) in
          Some (within_target responseTime target)
      end
  | resolution =>
      match closed_at ticket with
      | None => None
      | Some cl =>
          let resolutionTime := Dates.differenceInMinutes cl (created_at ticket) in
          Some (within_target resolutionTime target)
      end
  end.

(** Truthiness of a [boolean | null] used as a filter predicate. *)
Definition verdict_truthy (v : option bool) : bool :=
  match v with Some b => b | None => false end.

Definition has_response (t : TicketWithTimes) : bool :=
  match first_response_at t with Some _ => true | None => false end.

Definition has_closed (t : TicketWithTimes) : bool :=
  match closed_at t with Some _ => true | None => false end.

(** ** The per-analyst rollup *)

(** [Map<string, AnalystMetrics>]: a JavaScript [Map] iterates in the order
    of first insertion, and [set] on a present key keeps its position. *)
Definition MetricsMap := list (string * AnalystMetrics).

Fixpoint map_get (k : string) (m : MetricsMap) : option AnalystMetrics :=
  match m with
  | [] => None
  | (k', v) :: r => if String.eqb k' k then Some v else map_get k r
  end.

Fixpoint map_set (k : string) (v : AnalystMetrics) (m : MetricsMap) : MetricsMap :=
  match m with
  | [] => [(k, v)]
  | (k', v') :: r => if String.eqb k' k then (k, v) :: r else (k', v') :: map_set k v r
  end.

Definition map_values (m : MetricsMap) : list AnalystMetrics := map snd m.

(** The object created when the analyst is met for the first time. *)
Definition fresh_metrics (a : string) (ticket : TicketWithTimes) : AnalystMetrics :=
  {| analyst_id := a;
     analyst_name := Js.or_else (profiles ticket) "Desconhecido";
     total_tickets := 0;
     avg_response_time := 0%Q;
     avg_resolution_time := 0%Q;
     resolved_tickets := 0;
     sla_response_compliance := 0%Q;
     sla_resolution_compliance := 0%Q |}.

(** The three updates of [existing] in the loop body, in source order. *)
Definition bump_total (e : AnalystMetrics) : AnalystMetrics :=
  {| analyst_id := analyst_id e; analyst_name := analyst_name e;
     total_tickets := total_tickets e + 1;
     avg_response_time := avg_response_time e;
     avg_resolution_time := avg_resolution_time e;
     resolved_tickets := resolved_tickets e;
     sla_response_compliance := sla_response_compliance e;
     sla_resolution_compliance := sla_resolution_compliance e |}.

Definition fold_response (ticket : TicketWithTimes) (e : AnalystMetrics) : AnalystMetrics :=
  match first_response_at ticket with
  | None => e
  | Some fr =>
      let responseTime := Dates.differenceInMinutes fr (created_at ticket) in
      {| analyst_id := analyst_id e; analyst_name := analyst_name e;
         total_tickets := total_tickets e;
         avg_response_time :=
           ((avg_response_time e * inject_Z (total_tickets e - 1) + inject_Z responseTime)
              / inject_Z (total_tickets e))%Q;
         avg_resolution_time := avg_resolution_time e;
         resolved_tickets := resolved_tickets e;
         sla_response_compliance := sla_response_compliance e;
         sla_resolution_compliance := sla_resolution_compliance e |}
  end.

Definition fold_resolution (ticket : TicketWithTimes) (e : AnalystMetrics) : AnalystMetrics :=
  match closed_at ticket with
  | None => e
  | Some cl =>
      let resolved := resolved_tickets e + 1 in
      let resolutionTime := Dates.differenceInMinutes cl (created_at ticket) in
      {| analyst_id := analyst_id e; analyst_name := analyst_name e;
         total_tickets := total_tickets e;
         avg_response_time := avg_response_time e;
         avg_resolution_time :=
           ((avg_resolution_time e * inject_Z (resolved - 1) + inject_Z resolutionTime)
              / inject_Z resolved)%Q;
         resolved_tickets := resolved;
         sla_response_compliance := sla_response_compliance e;
         sla_resolution_compliance := sla_resolution_compliance e |}
  end.

Definition update_metrics (ticket : TicketWithTimes) (e : AnalystMetrics) : AnalystMetrics :=
  fold_resolution ticket (fold_response ticket (bump_total e)).

(** The body of [ticketsData.forEach(ticket => ...)]. *)
Definition forEach_body (metricsMap : MetricsMap) (ticket : TicketWithTimes) : MetricsMap :=
  if negb (Js.truthy (assigned_to ticket)) then metricsMap
  else
    match assigned_to ticket with
    | None => metricsMap
    | Some a =>
        let existing :=
          match map_get a metricsMap with
          | Some e => e
          | None => fresh_metrics a ticket
          end in
        map_set a (update_metrics ticket existing) metricsMap
    end.

(** [count / total * 100], or [0] when [total] is not positive. *)
Definition percentage (count total : Z) : Q :=
  if 0 <? total then (inject_Z count / inject_Z total * 100)%Q else 0%Q.

Definition ticketsWithResponse (ts : list TicketWithTimes) : list TicketWithTimes :=
  filter has_response ts.

Definition ticketsWithinResponseSla (ts : list TicketWithTimes) : list TicketWithTimes :=
  filter (fun t => verdict_truthy (isWithinSla t response)) (ticketsWithResponse ts).

Definition ticketsResolved (ts : list TicketWithTimes) : list TicketWithTimes :=
  filter has_closed ts.

Definition ticketsWithinResolutionSla (ts : list TicketWithTimes) : list TicketWithTimes :=
  filter (fun t => verdict_truthy (isWithinSla t resolution)) (ticketsResolved ts).

Definition compliance_response (ts : list TicketWithTimes) : Q :=
  percentage (Js.length (ticketsWithinResponseSla ts)) (Js.length (ticketsWithResponse ts)).

Definition compliance_resolution (ts : list TicketWithTimes) : Q :=
  percentage (Js.length (ticketsWithinResolutionSla ts)) (Js.length (ticketsResolved ts)).

(** The tickets of one analyst: [ticketsData.filter(t => t.assigned_to === id)]. *)
Definition analystTickets (a : string) (ticketsData : list TicketWithTimes) : list TicketWithTimes :=
  filter (fun t => Js.strict_eq (assigned_to t) a) ticketsData.

(** The callback of [Array.from(metricsMap.values()).map(analyst => ...)]. *)
Definition with_compliance (ticketsData : list TicketWithTimes) (a : AnalystMetrics) : AnalystMetrics :=
  let mine := analystTickets (analyst_id a) ticketsData in
  {| analyst_id := analyst_id a; analyst_name := analyst_name a;
     total_tickets := total_tickets a;
     avg_response_time := avg_response_time a;
     avg_resolution_time := avg_resolution_time a;
     resolved_tickets := resolved_tickets a;
     sla_response_compliance := compliance_response mine;
     sla_resolution_compliance := compliance_resolution mine |}.

Definition metricsMap_of (ticketsData : list TicketWithTimes) : MetricsMap :=
  fold_left forEach_body ticketsData [].

(** The value handed to [setAnalystMetrics]. *)
Definition calculateAnalystMetrics (ticketsData : list TicketWithTimes) : list AnalystMetrics :=
  map (with_compliance ticketsData) (map_values (metricsMap_of ticketsData)).

(** ** Loading: the creation window *)

(** [dateRange]: the two fields hold the time values of
    [new Date(dateRange.start)] and [new Date(dateRange.end)]. *)
Record DateRange := mkRange { range_start : Z; range_end : Z }.

Definition startDate (dateRange : DateRange) : Z :=
  Dates.setUTCHours (range_start dateRange) 0 0 0 0.

Definition endDate (dateRange : DateRange) : Z :=
  Dates.setUTCHours (range_end dateRange) 23 59 59 999.

Definition isInRange (dateRange : DateRange) (t : TicketWithTimes) : bool :=
  (startDate dateRange <=? created_at t) && (created_at t <=? endDate dateRange).

Definition filteredTickets (dateRange : DateRange) (allTicketsData : list TicketWithTimes)
  : list TicketWithTimes :=
  filter (isInRange dateRange) allTicketsData.

(** [t.assigned_to !== null] *)
Definition not_null (v : option string) : bool :=
  match v with Some _ => true | None => false end.

(** The two pieces of component state that [fetchTicketsWithMetrics] sets. *)
Record PageState := mkState {
  tickets : list TicketWithTimes;
  analystMetrics : list AnalystMetrics
}.

Definition fetchTicketsWithMetrics (dateRange : DateRange)
    (allTicketsData : list TicketWithTimes) : PageState :=
  let filtered := filteredTickets dateRange allTicketsData in
  let assignedTickets := filter (fun t => not_null (assigned_to t)) filtered in
  {| tickets := filtered;
     analystMetrics := calculateAnalystMetrics assignedTickets |}.

(** ** Rendering: the role filter and the overall statistics *)

(** The caller: [role] and [profile?.id] from [useAuth()]. *)
Record Caller := mkCaller { role : AppRole; profile_id : option string }.

Definition is_mine (caller : Caller) (selectedAnalyst : string) (t : TicketWithTimes) : bool :=
  if negb (Js.truthy (assigned_to t)) then false
  else
    match role caller with
    | admin =>
        if negb (String.eqb selectedAnalyst "all")
        then Js.strict_eq (assigned_to t) selectedAnalyst
        else true
    | _ => Js.strict_eq_opt (assigned_to t) (profile_id caller)
    end.

Definition assignedTickets (caller : Caller) (selectedAnalyst : string)
    (tickets : list TicketWithTimes) : list TicketWithTimes :=
  filter (is_mine caller selectedAnalyst) tickets.

Record SlaStats := mkSla { responseCompliance : Q; resolutionCompliance : Q }.

Definition slaStats (assigned : list TicketWithTimes) : SlaStats :=
  {| responseCompliance := compliance_response assigned;
     resolutionCompliance := compliance_resolution assigned |}.

Record OverallStats := mkOverall {
  totalTickets : Z;
  respondedTickets : Z;
  resolvedTickets : Z;
  avgResponseTime : Num.JsNumber;
  avgResolutionTime : Num.JsNumber
}.

(** The two [reduce] calls. *)
Definition sum_response (assigned : list TicketWithTimes) : Z :=
  fold_left (fun acc t =>
               match first_response_at t with
               | Some fr => acc + Dates.differenceInMinutes fr (created_at t)
               | None => acc
               end) assigned 0.

Definition sum_resolution (assigned : list TicketWithTimes) : Z :=
  fold_left (fun acc t =>
               match closed_at t with
               | Some cl => acc + Dates.differenceInMinutes cl (created_at t)
               | None => acc
               end) assigned 0.

(** [n || 1] on a length. *)
Definition or_one (n : Z) : Z := if n =? 0 then 1 else n.

Definition overallStats (assigned : list TicketWithTimes) : OverallStats :=
  {| totalTickets := Js.length assigned;
     respondedTickets := Js.length (filter has_response assigned);
     resolvedTickets := Js.length (filter has_closed assigned);
     avgResponseTime :=
       Num.div (sum_response assigned)
         (or_one (Js.length (filter has_response assigned)));
     avgResolutionTime :=
       Num.div (sum_resolution assigned)
         (or_one (Js.length (filter has_closed assigned))) |}.

(** What one render shows for the date-filtered [tickets]: the overall
    statistics and SLA percentages over [assignedTickets], and the
    per-analyst list computed when the tickets were loaded. *)
Record Aggregate := mkAggregate {
  overall : OverallStats;
  sla : SlaStats;
  perAnalyst : list AnalystMetrics
}.

Definition aggregate (tickets : list TicketWithTimes) (selectedAnalyst : string)
    (caller : Caller) : Aggregate :=
  let assigned := assignedTickets caller selectedAnalyst tickets in
  {| overall := overallStats assigned;
     sla := slaStats assigned;
     perAnalyst :=
       calculateAnalystMetrics (filter (fun t => not_null (assigned_to t)) tickets) |}.

(** ** Sample data *)

Module Sample.

Definition ticket (created : Z) (prio : string) (fr cl : option Z)
    (assignee : option string) : TicketWithTimes :=
  {| id := "t"; title := "";
     created_at := created; updated_at := created;
     first_response_at := fr; closed_at := cl;
     assigned_to := assignee; status_id := None;
     priority := Some prio; ticket_statuses := None; profiles := None |}.

Definition jan1 (h mi : Z) : Z := Dates.utc 2024 1 1 h mi 0 0.

(** Scenario A and B of the specification. *)
Definition scenarioA : TicketWithTimes :=
  ticket (jan1 0 0) "high" (Some (jan1 0 45)) None (Some "ana"%string).
Definition scenarioB : TicketWithTimes :=
  ticket (jan1 0 0) "critical" (Some (jan1 1 0)) None (Some "ana"%string).

Definition ana : Caller := {| role := analyst; profile_id := Some "ana"%string |}.
Definition root : Caller := {| role := admin; profile_id := Some "root"%string |}.

End Sample.

(** ** Definitions used to state the properties *)

Definition keys (m : MetricsMap) : list string := map fst m.

(** The loop body seen from one analyst [a]: what happens to the entry of
    [a] when one of their tickets is processed. *)
Definition step_entry (a : string) (o : option AnalystMetrics) (t : TicketWithTimes)
  : option AnalystMetrics :=
  Some (update_metrics t (match o with Some e => e | None => fresh_metrics a t end)).

Definition final_entry (e0 : AnalystMetrics) (ts : list TicketWithTimes) : AnalystMetrics :=
  fold_left (fun e t => update_metrics t e) ts e0.

(** The running means as the specification words them (section 4.5, step
    4).  [n] is the number of the analyst's tickets processed so far; every
    ticket advances it, and [newMean = (oldMean*(n-1) + sample)/n] is taken
    only when the ticket has a first response. *)
Fixpoint running_mean_response (n : Z) (mean : Q) (ts : list TicketWithTimes) : Q :=
  match ts with
  | [] => mean
  | t :: rest =>
      let n' := n + 1 in
      match first_response_at t with
      | Some fr =>
          let sample := Dates.differenceInMinutes fr (created_at t) in
          running_mean_response n'
            ((mean * inject_Z (n' - 1) + inject_Z sample) / inject_Z n')%Q rest
      | None => running_mean_response n' mean rest
      end
  end.

(** The same fold with the running count of resolved tickets [k] as the
    denominator: only a ticket with a closure advances it. *)
Fixpoint running_mean_resolution (k : Z) (mean : Q) (ts : list TicketWithTimes) : Q :=
  match ts with
  | [] => mean
  | t :: rest =>
      match closed_at t with
      | Some cl =>
          let k' := k + 1 in
          let sample := Dates.differenceInMinutes cl (created_at t) in
          running_mean_resolution k'
            ((mean * inject_Z (k' - 1) + inject_Z sample) / inject_Z k')%Q rest
      | None => running_mean_resolution k mean rest
      end
  end.

(** The calendar day of an instant: its first and its last millisecond. *)
Definition day_start (t : Z) : Z := t - t mod Dates.msPerDay.
Definition day_end (t : Z) : Z := day_start t + (Dates.msPerDay - 1).

(** The plain sum of the elapsed minutes of the tickets that reached a
    milestone. *)
Fixpoint elapsed_total (milestone : TicketWithTimes -> option Z)
    (ts : list TicketWithTimes) : Z :=
  match ts with
  | [] => 0
  | t :: rest =>
      match milestone t with
      | Some m => Dates.differenceInMinutes m (created_at t) + elapsed_total milestone rest
      | None => elapsed_total milestone rest
      end
  end.

(** * The rest of the page *)

(** ** [formatMinutes] *)

(** The three shapes of the text and the numbers put into them. *)
Inductive Duration :=
| Mins (m : Z)
| HoursMins (h m : Z)
| DaysHours (d h : Z).

(** The control flow of [formatMinutes], up to the template literals. *)
Definition duration_of (minutes : Q) : Duration :=
  if Num.Qlt_bool minutes 60 then Mins (Num.Math_round minutes)
  else
    let hours := Num.Math_floor (minutes / 60) in
    let mins := Num.Math_round (Num.rem minutes 60) in
    if hours <? 24 then HoursMins hours mins
    else
      let days := Num.Math_floor (inject_Z hours / 24) in
      DaysHours days (Z.rem hours 24).

(** The template literals. *)
Definition duration_text (d : Duration) : string :=
  match d with
  | Mins m => Num.toString m ++ " min"
  | HoursMins h m => Num.toString h ++ "h " ++ Num.toString m ++ "min"
  | DaysHours d h => Num.toString d ++ "d " ++ Num.toString h ++ "h"
  end.

Definition formatMinutes (minutes : Q) : string := duration_text (duration_of minutes).

(** ** Colour and icon of a compliance percentage *)

Definition getSlaComplianceColor (compliance : Q) : string :=
  if Qle_bool 90 compliance then "text-green-600"
  else if Qle_bool 70 compliance then "text-yellow-600"
  else "text-red-600".

(** The icon element: the component and its class. *)
Inductive IconName := CheckCircle | AlertTriangle | XCircle.

Record Icon := mkIcon { icon_name : IconName; icon_class : string }.

Definition getSlaComplianceIcon (compliance : Q) : Icon :=
  if Qle_bool 90 compliance then {| icon_name := CheckCircle; icon_class := "h-4 w-4 text-green-500" |}
  else if Qle_bool 70 compliance then {| icon_name := AlertTriangle; icon_class := "h-4 w-4 text-yellow-500" |}
  else {| icon_name := XCircle; icon_class := "h-4 w-4 text-red-500" |}.

(** ** The share-of-total captions *)

(** [(count / total) * 100 || 0], the number handed to [toFixed(1)]. *)
Definition shareOfTotal (count total : Z) : Num.JsNumber :=
  Num.or_zero (Num.times100 (Num.div count total)).

Definition respondedShare (o : OverallStats) : Num.JsNumber :=
  shareOfTotal (respondedTickets o) (totalTickets o).

Definition resolvedShare (o : OverallStats) : Num.JsNumber :=
  shareOfTotal (resolvedTickets o) (totalTickets o).

(** ** The analyst filter of an admin *)

(** A [Map] with any kind of value, built by [new Map(entries)]: the
    entries are set one after the other. *)
Fixpoint entry_set {V : Type} (k : string) (v : V) (m : list (string * V))
  : list (string * V) :=
  match m with
  | [] => [(k, v)]
  | (k', v') :: r => if String.eqb k' k then (k, v) :: r else (k', v') :: entry_set k v r
  end.

Definition new_Map {V : Type} (entries : list (string * V)) : list (string * V) :=
  fold_left (fun m kv => entry_set (fst kv) (snd kv) m) entries [].

Record AnalystOption := mkOption { option_id : string; option_name : string }.

(** [[t.assigned_to, { id: t.assigned_to, name: ... }]] for a ticket that
    passed [t.assigned_to !== null]; the [None] branch is never taken. *)
Definition option_entry (t : TicketWithTimes) : string * AnalystOption :=
  let a := match assigned_to t with Some a => a | None => EmptyString end in
  (a, {| option_id := a; option_name := Js.or_else (profiles t) "Desconhecido" |}).

Definition analystOptions (tickets : list TicketWithTimes) : list AnalystOption :=
  map snd (new_Map (map option_entry (filter (fun t => not_null (assigned_to t)) tickets))).

(** ** The assumption time of an analyst *)

Definition sum_assumption (ts : list TicketWithTimes) : Z :=
  fold_left (fun acc t => acc + Dates.differenceInMinutes (updated_at t) (created_at t)) ts 0.

(** [avgAssumptionTime] in the list of analysts; [updated_at] is never
    null, so every ticket of the analyst is added. *)
Definition avgAssumptionTime (tickets : list TicketWithTimes) (a : AnalystMetrics) : Q :=
  let mine := filter (fun t => Js.strict_eq (assigned_to t) (analyst_id a)) tickets in
  (inject_Z (sum_assumption mine) / inject_Z (or_one (Js.length mine)))%Q.

(** ** The recent tickets *)

(** The priority badge: absent for a falsy priority. *)
Definition priorityBadge (priority : option string) : option string :=
  if Js.truthy priority then
    Some (if Js.strict_eq priority "urgent" then "Urgente"
          else if Js.strict_eq priority "high" then "Alta"
          else if Js.strict_eq priority "medium" then "Média"
          else "Baixa")%string
  else None.

(** The icon beside a time: none for [null], else by the verdict. *)
Definition verdict_icon (v : option bool) : option IconName :=
  match v with
  | None => None
  | Some true => Some CheckCircle
  | Some false => Some XCircle
  end.

(** The class of a time: by the verdict's truthiness when there is a time. *)
Definition time_class (time : option Z) (v : option bool) : string :=
  match time with
  | Some _ => ((if verdict_truthy v then "text-green-600" else "text-red-600") ++ " font-medium")%string
  | None => "text-muted-foreground"%string
  end.

(** The text of a time. *)
Definition time_text (time : option Z) : string :=
  match time with
  | Some m => formatMinutes (inject_Z m)
  | None => "-"%string
  end.

Record RecentRow := mkRecentRow {
  row_id : string;
  row_badge : option string;
  assumptionTime : option Z;
  responseTime : option Z;
  resolutionTime : option Z;
  responseSla : option bool;
  resolutionSla : option bool
}.

Definition recent_row (ticket : TicketWithTimes) : RecentRow :=
  {| row_id := id ticket;
     row_badge := priorityBadge (priority ticket);
     assumptionTime :=
       Some (Dates.differenceInMinutes (updated_at ticket) (created_at ticket));
     responseTime :=
       match first_response_at ticket with
       | Some fr => Some (Dates.differenceInMinutes fr (created_at ticket))
       | None => None
       end;
     resolutionTime :=
       match closed_at ticket with
       | Some cl => Some (Dates.differenceInMinutes cl (created_at ticket))
       | None => None
       end;
     responseSla := isWithinSla ticket response;
     resolutionSla := isWithinSla ticket resolution |}.

(** What one of the two time columns draws: the icon, the class of the
    text and the text.  Both columns are written the same way. *)
Record TimeCell := mkCell {
  cell_icon : option IconName;
  cell_class : string;
  cell_text : string
}.

Definition time_cell (time : option Z) (v : option bool) : TimeCell :=
  {| cell_icon := verdict_icon v;
     cell_class := time_class time v;
     cell_text := time_text time |}.

(** The time and the verdict of a row by kind: the first-response column
    or the resolution column. *)
Definition row_time (kind : MetricKind) (row : RecentRow) : option Z :=
  match kind with
  | response => responseTime row
  | resolution => resolutionTime row
  end.

Definition row_sla (kind : MetricKind) (row : RecentRow) : option bool :=
  match kind with
  | response => responseSla row
  | resolution => resolutionSla row
  end.

Definition milestone (kind : MetricKind) (t : TicketWithTimes) : option Z :=
  match kind with
  | response => first_response_at t
  | resolution => closed_at t
  end.

(** [tickets.slice(0, 10).map(...)] *)
Definition recentTickets (tickets : list TicketWithTimes) : list RecentRow :=
  map recent_row (firstn 10 tickets).

(** ** The role of the caller (contexts/AuthContext.tsx) *)

Definition role_eqb (a b : AppRole) : bool :=
  match a, b with
  | admin, admin | analyst, analyst | user, user => true
  | _, _ => false
  end.

(** [roles.includes(r)] *)
Definition includes (roles : list AppRole) (r : AppRole) : bool :=
  existsb (role_eqb r) roles.

(** The role set by [fetchRole]; [None] is a failed query or no data. *)
Definition fetchRole (response : option (list AppRole)) : AppRole :=
  match response with
  | Some data =>
      if 0 <? Js.length data then
        if includes data admin then admin
        else if includes data analyst then analyst
        else user
      else user
  | None => user
  end.

Definition isStaff (r : AppRole) : bool :=
  role_eqb r admin || role_eqb r analyst.

(** ** Definitions used to state the further properties *)

(** The distinct members of a list in the order of their first
    appearance. *)
Definition see (acc : list string) (k : string) : list string :=
  if existsb (String.eqb k) acc then acc else acc ++ [k].

Definition first_seen (ks : list string) : list string := fold_left see ks [].

(** The non-null [assigned_to] values, in list order. *)
Definition assigned_ids (l : list TicketWithTimes) : list string :=
  flat_map (fun t => match assigned_to t with Some a => [a] | None => [] end) l.

(** The identities that the rollup loop meets: the truthy [assigned_to]
    values, in list order. *)
Definition assignees (l : list TicketWithTimes) : list string :=
  flat_map (fun t => match assigned_to t with
                     | Some a => if String.eqb a EmptyString then [] else [a]
                     | None => []
                     end) l.

(** The privilege order: user below analyst below admin. *)
Definition rank (r : AppRole) : Z :=
  match r with user => 0 | analyst => 1 | admin => 2 end.

(** * Properties *)

(** ** The insertion-ordered map *)

Section MapFacts.

Lemma map_get_set_same (k : string) (v : AnalystMetrics) (m : MetricsMap) :
  map_get k (map_set k v m) = Some v.
Proof.
  induction m as [|[k' v'] r IH]; simpl.
  - now rewrite String.eqb_refl.
  - destruct (String.eqb k' k) eqn:E; simpl.
    + now rewrite String.eqb_refl.
    + now rewrite E.
Qed.

Lemma map_get_set_other (k k0 : string) (v : AnalystMetrics) (m : MetricsMap) :
  k <> k0 -> map_get k0 (map_set k v m) = map_get k0 m.
Proof.
  intros Hk. induction m as [|[k' v'] r IH]; simpl.
  - destruct (String.eqb_spec k k0); [contradiction | reflexivity].
  - destruct (String.eqb_spec k' k) as [->|Hne]; simpl.
    + destruct (String.eqb_spec k k0); [contradiction | reflexivity].
    + now rewrite IH.
Qed.

Lemma map_get_In (k : string) (v : AnalystMetrics) (m : MetricsMap) :
  map_get k m = Some v -> In (k, v) m.
Proof.
  induction m as [|[k' v'] r IH]; simpl; [discriminate|].
  destruct (String.eqb_spec k' k) as [->|Hne]; intros H.
  - injection H as ->. now left.
  - right. auto.
Qed.

Lemma map_get_None (k : string) (m : MetricsMap) :
  map_get k m = None -> ~ In k (keys m).
Proof.
  induction m as [|[k' v'] r IH]; simpl; [tauto|].
  destruct (String.eqb_spec k' k) as [->|Hne]; [discriminate|].
  intros H [E|Hin]; [contradiction | now apply IH].
Qed.

Lemma In_map_get (k : string) (v : AnalystMetrics) (m : MetricsMap) :
  NoDup (keys m) -> In (k, v) m -> map_get k m = Some v.
Proof.
  induction m as [|[k' v'] r IH]; simpl; [tauto|].
  intros Hnd [E|Hin].
  - injection E as -> ->. now rewrite String.eqb_refl.
  - inversion Hnd as [|? ? Hnotin Hnd']; subst.
    destruct (String.eqb_spec k' k) as [->|Hne].
    + exfalso. apply Hnotin. change k with (fst (k, v)). now apply in_map.
    + auto.
Qed.

Lemma keys_map_set (k : string) (v : AnalystMetrics) (m : MetricsMap) :
  keys (map_set k v m) =
    match map_get k m with Some _ => keys m | None => keys m ++ [k] end.
Proof.
  induction m as [|[k' v'] r IH]; simpl; [reflexivity|].
  destruct (String.eqb_spec k' k) as [->|Hne]; simpl; [reflexivity|].
  rewrite IH. now destruct (map_get k r).
Qed.

Lemma NoDup_keys_map_set (k : string) (v : AnalystMetrics) (m : MetricsMap) :
  NoDup (keys m) -> NoDup (keys (map_set k v m)).
Proof.
  intros Hnd. rewrite keys_map_set.
  destruct (map_get k m) eqn:E; [assumption|].
  apply map_get_None in E.
  apply NoDup_app; [assumption | repeat constructor; simpl; tauto |].
  intros x Hx [<-|[]]. contradiction.
Qed.

End MapFacts.

(** ** The updates of one entry *)

Section EntryFields.

Implicit Types (t : TicketWithTimes) (e : AnalystMetrics) (ts : list TicketWithTimes).

Lemma update_metrics_fields t e :
  analyst_id (update_metrics t e) = analyst_id e /\
  total_tickets (update_metrics t e) = total_tickets e + 1 /\
  resolved_tickets (update_metrics t e) =
    resolved_tickets e + (if has_closed t then 1 else 0) /\
  avg_response_time (update_metrics t e) =
    match first_response_at t with
    | Some fr =>
        ((avg_response_time e * inject_Z (total_tickets e + 1 - 1)
          + inject_Z (Dates.differenceInMinutes fr (created_at t)))
         / inject_Z (total_tickets e + 1))%Q
    | None => avg_response_time e
    end /\
  avg_resolution_time (update_metrics t e) =
    match closed_at t with
    | Some cl =>
        ((avg_resolution_time e * inject_Z (resolved_tickets e + 1 - 1)
          + inject_Z (Dates.differenceInMinutes cl (created_at t)))
         / inject_Z (resolved_tickets e + 1))%Q
    | None => avg_resolution_time e
    end.
Proof.
  unfold update_metrics, fold_resolution, fold_response, has_closed.
  destruct (closed_at t), (first_response_at t); simpl;
    repeat split; try reflexivity; lia.
Qed.

Lemma final_entry_cons e t ts :
  final_entry e (t :: ts) = final_entry (update_metrics t e) ts.
Proof. reflexivity. Qed.

Lemma final_entry_fields ts e :
  analyst_id (final_entry e ts) = analyst_id e /\
  total_tickets (final_entry e ts) = total_tickets e + Js.length ts /\
  resolved_tickets (final_entry e ts) =
    resolved_tickets e + Js.length (filter has_closed ts) /\
  avg_response_time (final_entry e ts) =
    running_mean_response (total_tickets e) (avg_response_time e) ts /\
  avg_resolution_time (final_entry e ts) =
    running_mean_resolution (resolved_tickets e) (avg_resolution_time e) ts.
Proof.
  revert e. induction ts as [|t ts IH]; intros e.
  - unfold Js.length. simpl. repeat split; lia.
  - rewrite final_entry_cons.
    destruct (IH (update_metrics t e)) as (Hid & Htot & Hres & Hresp & Hreso).
    destruct (update_metrics_fields t e) as (Uid & Utot & Ures & Uresp & Ureso).
    rewrite Hid, Htot, Hres, Hresp, Hreso, Uid, Utot, Ures, Uresp, Ureso.
    unfold Js.length, has_closed. simpl.
    destruct (closed_at t), (first_response_at t); simpl;
      repeat split; try reflexivity; try lia.
    all: now rewrite Z.add_0_r.
Qed.

Lemma final_entry_id ts e : analyst_id (final_entry e ts) = analyst_id e.
Proof. apply final_entry_fields. Qed.

Lemma step_entry_fold (a : string) ts e :
  fold_left (step_entry a) ts (Some e) = Some (final_entry e ts).
Proof.
  revert e. induction ts as [|t ts IH]; intros e; simpl; [reflexivity|].
  apply IH.
Qed.

(** Started from no entry, the first ticket makes the fresh one. *)
Lemma step_entry_fold_None (a : string) ts :
  fold_left (step_entry a) ts None =
    match ts with
    | [] => None
    | t0 :: _ => Some (final_entry (fresh_metrics a t0) ts)
    end.
Proof.
  destruct ts as [|t0 rest]; simpl; [reflexivity|].
  unfold step_entry at 2. now rewrite step_entry_fold.
Qed.

End EntryFields.

(** ** One analyst's entry through the loop *)

Section OneAnalyst.

Variable a : string.
Hypothesis a_not_empty : a <> EmptyString.

Lemma strict_eq_truthy (v : option string) :
  Js.strict_eq v a = true -> Js.truthy v = true.
Proof.
  destruct v as [s|]; simpl; [|discriminate].
  intros E. apply String.eqb_eq in E. subst s.
  destruct (String.eqb_spec a EmptyString); [contradiction | reflexivity].
Qed.

(** The loop body touches the entry of [a] exactly at the tickets of [a]. *)
Lemma get_forEach_body (m : MetricsMap) (t : TicketWithTimes) :
  map_get a (forEach_body m t) =
    if Js.strict_eq (assigned_to t) a then step_entry a (map_get a m) t
    else map_get a m.
Proof.
  unfold forEach_body.
  destruct (Js.strict_eq (assigned_to t) a) eqn:E.
  - rewrite (strict_eq_truthy _ E). simpl.
    destruct (assigned_to t) as [s|]; [|discriminate].
    simpl in E. apply String.eqb_eq in E. subst s.
    now rewrite map_get_set_same.
  - destruct (Js.truthy (assigned_to t)); simpl; [|reflexivity].
    destruct (assigned_to t) as [s|]; [|reflexivity].
    simpl in E. apply String.eqb_neq in E.
    now apply map_get_set_other.
Qed.

(** The whole loop, seen from [a], is the fold over the tickets of [a]. *)
Lemma get_fold (l : list TicketWithTimes) (m : MetricsMap) :
  map_get a (fold_left forEach_body l m) =
    fold_left (step_entry a) (analystTickets a l) (map_get a m).
Proof.
  revert m. induction l as [|t l IH]; intros m; simpl; [reflexivity|].
  rewrite IH, get_forEach_body.
  now destruct (Js.strict_eq (assigned_to t) a).
Qed.

Lemma get_metricsMap (l : list TicketWithTimes) :
  map_get a (metricsMap_of l) =
    match analystTickets a l with
    | [] => None
    | t0 :: _ => Some (final_entry (fresh_metrics a t0) (analystTickets a l))
    end.
Proof.
  unfold metricsMap_of. rewrite get_fold. simpl. apply step_entry_fold_None.
Qed.

Lemma entry_exists (l : list TicketWithTimes) :
  analystTickets a l <> [] -> exists e, In (a, e) (metricsMap_of l).
Proof.
  intros Hne. pose proof (get_metricsMap l) as E.
  destruct (analystTickets a l) as [|t0 rest]; [congruence|].
  eexists. apply map_get_In. exact E.
Qed.

End OneAnalyst.

(** ** The map after the loop *)

Section Rollup.

Implicit Types (l : list TicketWithTimes) (m : MetricsMap) (t : TicketWithTimes).

Lemma get_empty_key_body m t :
  map_get EmptyString (forEach_body m t) = map_get EmptyString m.
Proof.
  unfold forEach_body. destruct (assigned_to t) as [s|]; simpl; [|reflexivity].
  destruct (String.eqb_spec s EmptyString) as [->|Hne]; simpl; [reflexivity|].
  now apply map_get_set_other.
Qed.

Lemma get_empty_key_fold l m :
  map_get EmptyString (fold_left forEach_body l m) = map_get EmptyString m.
Proof.
  revert m. induction l as [|t l IH]; intros m; simpl; [reflexivity|].
  now rewrite IH, get_empty_key_body.
Qed.

Lemma NoDup_keys_body m t :
  NoDup (keys m) -> NoDup (keys (forEach_body m t)).
Proof.
  intros H. unfold forEach_body.
  destruct (negb (Js.truthy (assigned_to t))); [assumption|].
  destruct (assigned_to t); [|assumption].
  now apply NoDup_keys_map_set.
Qed.

Lemma NoDup_keys_fold l m :
  NoDup (keys m) -> NoDup (keys (fold_left forEach_body l m)).
Proof.
  revert m. induction l as [|t l IH]; intros m H; simpl; [assumption|].
  apply IH. now apply NoDup_keys_body.
Qed.

Lemma NoDup_keys_metricsMap l : NoDup (keys (metricsMap_of l)).
Proof. apply NoDup_keys_fold. constructor. Qed.

(** An entry of the map is the fold of the loop body over the tickets of
    its key, started from the fresh entry that the first of them makes. *)
Lemma entry_characterised l (a : string) (e : AnalystMetrics) :
  In (a, e) (metricsMap_of l) ->
  a <> EmptyString /\
  exists t0 rest,
    analystTickets a l = t0 :: rest /\
    e = final_entry (fresh_metrics a t0) (t0 :: rest).
Proof.
  intros Hin.
  apply In_map_get in Hin; [|apply NoDup_keys_metricsMap].
  assert (Ha : a <> EmptyString).
  { intros ->. unfold metricsMap_of in Hin.
    rewrite get_empty_key_fold in Hin. discriminate. }
  split; [assumption|].
  rewrite (get_metricsMap a Ha) in Hin.
  destruct (analystTickets a l) as [|t0 rest]; [discriminate|].
  exists t0, rest. split; [reflexivity|]. now injection Hin as <-.
Qed.

Lemma entry_id l (a : string) (e : AnalystMetrics) :
  In (a, e) (metricsMap_of l) -> analyst_id e = a.
Proof.
  intros Hin.
  destruct (entry_characterised _ _ _ Hin) as (_ & t0 & rest & _ & ->).
  now rewrite final_entry_id.
Qed.

End Rollup.

(** ** Percentages *)

Section Percentages.

Lemma percentage_bounds (count total : Z) :
  0 <= count <= total -> (0 <= percentage count total <= 100)%Q.
Proof.
  intros [H0 H1]. unfold percentage.
  destruct (Z.ltb_spec 0 total) as [Hpos|Hnpos].
  - destruct total as [|p|p]; try lia.
    unfold Qle, Qdiv, Qmult, Qinv, inject_Z. simpl.
    split; nia.
  - split; unfold Qle; simpl; lia.
Qed.

Lemma length_filter_le {A : Type} (p : A -> bool) (l : list A) :
  0 <= Js.length (filter p l) <= Js.length l.
Proof.
  unfold Js.length. pose proof (filter_length_le p l). lia.
Qed.



End Percentages.

(** ** The entries of the per-analyst list *)

Section PerAnalyst.

Lemma perAnalyst_entry (l : list TicketWithTimes) (m : AnalystMetrics) :
  In m (calculateAnalystMetrics l) ->
  exists e, In (analyst_id m, e) (metricsMap_of l) /\ m = with_compliance l e.
Proof.
  unfold calculateAnalystMetrics, map_values. intros Hin.
  apply in_map_iff in Hin. destruct Hin as (e & <- & Hin).
  apply in_map_iff in Hin. destruct Hin as ([a e'] & He & Hin).
  simpl in He. subst e'. exists e. split; [|reflexivity].
  simpl. now rewrite (entry_id _ _ _ Hin).
Qed.

Lemma ids_are_keys (l : list TicketWithTimes) :
  map analyst_id (calculateAnalystMetrics l) = keys (metricsMap_of l).
Proof.
  unfold calculateAnalystMetrics, map_values, keys.
  rewrite !map_map. apply map_ext_in.
  intros [a e] Hin. simpl. exact (entry_id _ _ _ Hin).
Qed.

(** What the loop leaves in each entry. *)
Lemma perAnalyst_fields (l : list TicketWithTimes) (m : AnalystMetrics) :
  In m (calculateAnalystMetrics l) ->
  let mine := analystTickets (analyst_id m) l in
  analyst_id m <> EmptyString /\
  mine <> [] /\
  total_tickets m = Js.length mine /\
  resolved_tickets m = Js.length (filter has_closed mine) /\
  avg_response_time m = running_mean_response 0 0 mine /\
  avg_resolution_time m = running_mean_resolution 0 0 mine.
Proof.
  intros Hin mine. apply perAnalyst_entry in Hin. destruct Hin as (e & Hin & Hm).
  destruct (entry_characterised _ _ _ Hin) as (Ha & t0 & rest & Hmine & He).
  fold mine in Hmine.
  destruct (final_entry_fields (t0 :: rest) (fresh_metrics (analyst_id m) t0))
    as (_ & Htot & Hres & Hresp & Hreso).
  rewrite <- He in Htot, Hres, Hresp, Hreso. simpl in Htot, Hres, Hresp, Hreso.
  rewrite Hm. simpl. rewrite Hmine.
  repeat split; try assumption; try discriminate.
  now rewrite Hm in Ha.
Qed.

End PerAnalyst.

(** ** The SLA target table *)

Section Targets.

(** C1, evaluated at Scenario B of the specification.  The specification
    gives a critical ticket the targets 30 and 240 and judges a response
    after 60 minutes late.  [SLA_TARGETS] of this page has no [critical]
    key, so [getSlaTarget] takes the medium targets 240 and 1440 and the
    same ticket is judged within the response SLA. *)
Theorem critical_ticket_gets_medium_target :
  getSlaTarget (Some "critical"%string) response = Minutes 240 /\
  getSlaTarget (Some "critical"%string) resolution = Minutes 1440 /\
  Dates.differenceInMinutes (Sample.jan1 1 0) (Sample.jan1 0 0) = 60 /\
  isWithinSla Sample.scenarioB response = Some true.
Proof. repeat split; reflexivity. Qed.

(** Scenario A: a high ticket answered after 45 minutes is within its 60
    minute target. *)
Example scenarioA_within :
  getSlaTarget (Some "high"%string) response = Minutes 60 /\
  isWithinSla Sample.scenarioA response = Some true.
Proof. split; reflexivity. Qed.

Lemma existsb_eqb_false (p : string) (names : list string) :
  ~ In p names -> existsb (String.eqb p) names = false.
Proof.
  intros Hp. destruct (existsb (String.eqb p) names) eqn:E; [|reflexivity].
  apply existsb_exists in E. destruct E as (x & Hx & E).
  apply String.eqb_eq in E. subst x. contradiction.
Qed.

Lemma existsb_eqb_true (p : string) (names : list string) :
  In p names -> existsb (String.eqb p) names = true.
Proof.
  intros Hp. apply existsb_exists. exists p. split; [exact Hp | apply String.eqb_refl].
Qed.

Lemma not_key_eqb (p : string) :
  ~ In p sla_keys ->
  String.eqb p "urgent" = false /\ String.eqb p "high" = false /\
  String.eqb p "medium" = false /\ String.eqb p "low" = false.
Proof.
  intros Hp. unfold sla_keys in Hp. simpl in Hp.
  repeat split; apply String.eqb_neq; intros ->; tauto.
Qed.

(** A string that is neither a key nor an inherited name is not found;
    an inherited name that is no key gives the inherited member. *)
Lemma row_get_not_found (r : SlaRow) (p : string) :
  ~ In p sla_keys -> ~ In p Object_prototype_members -> row_get r p = None.
Proof.
  intros Hk Hm. destruct (not_key_eqb p Hk) as (H1 & H2 & H3 & H4).
  unfold row_get. now rewrite H1, H2, H3, H4, (existsb_eqb_false p _ Hm).
Qed.

Lemma row_get_inherited (r : SlaRow) (p : string) :
  In p Object_prototype_members -> row_get r p = Some (Inherited p).
Proof.
  intros Hm.
  assert (Hk : ~ In p sla_keys).
  { unfold sla_keys, Object_prototype_members in *. simpl in *.
    intros Hk. repeat (destruct Hm as [<-|Hm]);
      try contradiction; repeat (destruct Hk as [Hk|Hk]); try discriminate Hk;
      try contradiction. }
  destruct (not_key_eqb p Hk) as (H1 & H2 & H3 & H4).
  unfold row_get. now rewrite H1, H2, H3, H4, (existsb_eqb_true p _ Hm).
Qed.

Lemma member_not_empty (p : string) :
  In p Object_prototype_members -> p <> EmptyString.
Proof.
  unfold Object_prototype_members. simpl. intros Hm ->.
  repeat (destruct Hm as [Hm|Hm]; [discriminate Hm|]). exact Hm.
Qed.

(** For the name of an inherited member the lookup succeeds and the
    member itself is returned, with no fallback; no time is within such a
    target. *)
Lemma inherited_member_is_returned (p : string) (type : MetricKind) (time : Z) :
  In p Object_prototype_members ->
  getSlaTarget (Some p) type = Inherited p /\
  within_target time (getSlaTarget (Some p) type) = false.
Proof.
  intros Hm. assert (E : getSlaTarget (Some p) type = Inherited p).
  { unfold getSlaTarget. simpl.
    destruct (String.eqb_spec p EmptyString) as [->|_];
      [now apply member_not_empty in Hm|].
    now rewrite (row_get_inherited _ p Hm). }
  split; [exact E | now rewrite E].
Qed.

(** C5.  A priority that is not a key of the target table ([null] and the
    empty string included) and not the name of a member inherited from
    [Object.prototype] gets the medium target of the requested kind: 240
    minutes for response, 1440 for resolution.  The result is an ordinary
    number of minutes, no error value exists. *)
Theorem unrecognised_priority_gets_medium (priority : option string) (type : MetricKind) :
  (forall p, priority = Some p ->
             ~ In p sla_keys /\ ~ In p Object_prototype_members) ->
  getSlaTarget priority type = Minutes (medium (SLA_TARGETS type)) /\
  medium (SLA_TARGETS response) = 240 /\
  medium (SLA_TARGETS resolution) = 1440.
Proof.
  intros Hp. split; [|split; reflexivity].
  unfold getSlaTarget. destruct priority as [p|]; simpl.
  - destruct (String.eqb_spec p EmptyString) as [->|Hne].
    + now destruct type.
    + destruct (Hp p eq_refl) as [Hk Hm].
      now rewrite (row_get_not_found _ p Hk Hm).
  - now destruct type.
Qed.

Lemma unrecognised_priority_gets_medium_witness :
  getSlaTarget (Some "critical"%string) resolution
    = Minutes (medium (SLA_TARGETS resolution)) /\
  medium (SLA_TARGETS response) = 240 /\
  medium (SLA_TARGETS resolution) = 1440.
Proof.
  apply (unrecognised_priority_gets_medium (Some "critical"%string) resolution).
  intros p Hp. injection Hp as <-.
  unfold sla_keys, Object_prototype_members. simpl.
  split; intros H; repeat (destruct H as [H|H]; [discriminate H|]); exact H.
Defined.

(** Every target is a positive number of minutes or an inherited member,
    the latter only for a priority that names one. *)
Lemma getSlaTarget_cases (priority : option string) (type : MetricKind) :
  (exists n, getSlaTarget priority type = Minutes n /\ 0 < n) \/
  (exists p, priority = Some p /\ In p Object_prototype_members /\
             getSlaTarget priority type = Inherited p).
Proof.
  unfold getSlaTarget. destruct priority as [p|]; simpl.
  - destruct (String.eqb_spec p EmptyString) as [->|Hne].
    + left. destruct type; eexists; split; try reflexivity; lia.
    + unfold row_get.
      destruct (String.eqb p "urgent");
        [left; destruct type; eexists; split; try reflexivity; lia|].
      destruct (String.eqb p "high");
        [left; destruct type; eexists; split; try reflexivity; lia|].
      destruct (String.eqb p "medium");
        [left; destruct type; eexists; split; try reflexivity; lia|].
      destruct (String.eqb p "low");
        [left; destruct type; eexists; split; try reflexivity; lia|].
      destruct (existsb (String.eqb p) Object_prototype_members) eqn:E.
      * right. exists p. split; [reflexivity|]. split; [|reflexivity].
        apply existsb_exists in E. destruct E as (x & Hx & E).
        apply String.eqb_eq in E. now subst x.
      * left. destruct type; eexists; split; try reflexivity; lia.
  - left. destruct type; eexists; split; try reflexivity; lia.
Qed.

Lemma getSlaTarget_pos (priority : option string) (type : MetricKind) (n : Z) :
  getSlaTarget priority type = Minutes n -> 0 < n.
Proof.
  intros E. destruct (getSlaTarget_cases priority type) as [(k & Ek & Hk)|(p & _ & _ & Ep)];
    congruence.
Qed.

End Targets.

(** ** The creation window *)

Section Window.

Lemma startDate_day_start (dateRange : DateRange) :
  startDate dateRange = day_start (range_start dateRange).
Proof.
  unfold startDate, day_start, Dates.setUTCHours, Dates.MakeDate, Dates.Day,
    Dates.MakeTime, Dates.msPerDay.
  pose proof (Z.div_mod (range_start dateRange) 86400000). lia.
Qed.

Lemma endDate_day_end (dateRange : DateRange) :
  endDate dateRange = day_end (range_end dateRange).
Proof.
  unfold endDate, day_end, day_start, Dates.setUTCHours, Dates.MakeDate, Dates.Day,
    Dates.MakeTime, Dates.msPerDay.
  pose proof (Z.div_mod (range_end dateRange) 86400000). lia.
Qed.

(** [day_start t] is the midnight at or before [t], less than a day away. *)
Lemma day_start_spec (t : Z) :
  day_start t mod Dates.msPerDay = 0 /\
  day_start t <= t < day_start t + Dates.msPerDay.
Proof.
  unfold day_start, Dates.msPerDay.
  pose proof (Z.mod_pos_bound t 86400000).
  pose proof (Z.div_mod t 86400000).
  split; [|lia].
  replace (t - t mod 86400000) with (t / 86400000 * 86400000) by lia.
  apply Z.mod_mul. lia.
Qed.

(** For an instant given by its UTC calendar fields, [day_start] is
    00:00:00.000 and [day_end] is 23:59:59.999 of the same date. *)
Lemma day_of_utc (y mo d h mi s ms : Z) :
  0 <= h < 24 -> 0 <= mi < 60 -> 0 <= s < 60 -> 0 <= ms < 1000 ->
  day_start (Dates.utc y mo d h mi s ms) = Dates.utc y mo d 0 0 0 0 /\
  day_end (Dates.utc y mo d h mi s ms) = Dates.utc y mo d 23 59 59 999.
Proof.
  intros Hh Hmi Hs Hms.
  unfold day_end, day_start, Dates.utc, Dates.MakeDate, Dates.MakeTime, Dates.msPerDay.
  set (D := Dates.days_from_civil y mo d).
  set (tm := h * 3600000 + mi * 60000 + s * 1000 + ms).
  assert (Htm : 0 <= tm < 86400000) by (unfold tm; lia).
  assert (E : (D * 86400000 + tm) mod 86400000 = tm).
  { rewrite Z.add_comm, Z.mod_add by lia. apply Z.mod_small. lia. }
  rewrite E. lia.
Qed.

(** C6.  The loaded tickets are exactly the fetched tickets, in their
    order, whose [created_at] lies between 00:00:00.000 UTC of the start
    day and 23:59:59.999 UTC of the end day, both ends included; a ticket
    created at either boundary instant is kept, and no other field of
    the ticket is looked at. *)
Theorem creation_window_inclusive (dateRange : DateRange)
    (allTicketsData : list TicketWithTimes) :
  let lo := day_start (range_start dateRange) in
  let hi := day_end (range_end dateRange) in
  startDate dateRange = lo /\
  endDate dateRange = hi /\
  tickets (fetchTicketsWithMetrics dateRange allTicketsData) =
    filter (fun t => (lo <=? created_at t) && (created_at t <=? hi)) allTicketsData /\
  (forall t, In t (tickets (fetchTicketsWithMetrics dateRange allTicketsData)) <->
             In t allTicketsData /\ lo <= created_at t <= hi) /\
  (forall t, In t allTicketsData -> created_at t = lo -> lo <= hi ->
             In t (tickets (fetchTicketsWithMetrics dateRange allTicketsData))) /\
  (forall t, In t allTicketsData -> created_at t = hi -> lo <= hi ->
             In t (tickets (fetchTicketsWithMetrics dateRange allTicketsData))).
Proof.
  intros lo hi.
  assert (Hlo : startDate dateRange = lo) by apply startDate_day_start.
  assert (Hhi : endDate dateRange = hi) by apply endDate_day_end.
  assert (Hin : forall t,
             In t (tickets (fetchTicketsWithMetrics dateRange allTicketsData)) <->
             In t allTicketsData /\ lo <= created_at t <= hi).
  { intros t. simpl. unfold filteredTickets, isInRange.
    rewrite filter_In, Hlo, Hhi, andb_true_iff, !Z.leb_le. tauto. }
  split; [exact Hlo|]. split; [exact Hhi|]. split; [|split; [exact Hin|split]].
  - simpl. unfold filteredTickets, isInRange. now rewrite Hlo, Hhi.
  - intros t Ht Hc Hle. apply Hin. split; [assumption | lia].
  - intros t Ht Hc Hle. apply Hin. split; [assumption | lia].
Qed.

Lemma creation_window_inclusive_witness :
  let r := {| range_start := Dates.date_only 2024 3 1;
              range_end := Dates.date_only 2024 3 1 |} in
  let first := Sample.ticket (Dates.utc 2024 3 1 0 0 0 0) "low" None None None in
  let last := Sample.ticket (Dates.utc 2024 3 1 23 59 59 999) "low" None None None in
  let late := Sample.ticket (Dates.utc 2024 3 2 0 0 0 0) "low" None None None in
  In first (tickets (fetchTicketsWithMetrics r [first; last; late])) /\
  In last (tickets (fetchTicketsWithMetrics r [first; last; late])).
Proof.
  intros r first last late.
  destruct (creation_window_inclusive r [first; last; late])
    as (_ & _ & _ & _ & Hfirst & Hlast).
  split.
  - apply Hfirst; [simpl; tauto | reflexivity | vm_compute; discriminate].
  - apply Hlast; [simpl; tauto | reflexivity | vm_compute; discriminate].
Defined.

(** Scenario E: the single day 2024-03-01. *)
Example scenarioE :
  let r := {| range_start := Dates.date_only 2024 3 1;
              range_end := Dates.date_only 2024 3 1 |} in
  let mk c := Sample.ticket c "low" None None None in
  startDate r = Dates.utc 2024 3 1 0 0 0 0 /\
  endDate r = Dates.utc 2024 3 1 23 59 59 999 /\
  filteredTickets r
    [mk (Dates.utc 2024 3 2 0 0 0 0); mk (Dates.utc 2024 3 1 23 59 59 999);
     mk (Dates.utc 2024 3 1 12 0 0 0); mk (Dates.utc 2024 3 1 0 0 0 0);
     mk (Dates.utc 2024 2 29 23 59 59 999)] =
    [mk (Dates.utc 2024 3 1 23 59 59 999); mk (Dates.utc 2024 3 1 12 0 0 0);
     mk (Dates.utc 2024 3 1 0 0 0 0)].
Proof. repeat split; vm_compute; reflexivity. Qed.

End Window.

(** ** Tickets that have not reached a milestone *)

Section Unknown.

Lemma filter_drop {A : Type} (p : A -> bool) (x : A) (l1 l2 : list A) :
  p x = false -> filter p (l1 ++ x :: l2) = filter p (l1 ++ l2).
Proof. intros Hx. rewrite !filter_app. simpl. now rewrite Hx. Qed.

Lemma filter_filter_drop {A : Type} (p q : A -> bool) (x : A) (l1 l2 : list A) :
  p x = false -> filter p (filter q (l1 ++ x :: l2)) = filter p (filter q (l1 ++ l2)).
Proof.
  intros Hx. rewrite !filter_app. simpl.
  destruct (q x); [|reflexivity]. simpl. now rewrite Hx.
Qed.

Lemma analystTickets_not_null (a : string) (l : list TicketWithTimes) :
  analystTickets a (filter (fun t => not_null (assigned_to t)) l) = analystTickets a l.
Proof.
  unfold analystTickets. induction l as [|t l IH]; simpl; [reflexivity|].
  destruct (assigned_to t) as [s|] eqn:E; simpl.
  - rewrite E. simpl. now rewrite IH.
  - exact IH.
Qed.

Lemma perAnalyst_compliance (l : list TicketWithTimes) (m : AnalystMetrics) :
  In m (calculateAnalystMetrics l) ->
  sla_response_compliance m = compliance_response (analystTickets (analyst_id m) l) /\
  sla_resolution_compliance m = compliance_resolution (analystTickets (analyst_id m) l).
Proof.
  intros Hin. apply perAnalyst_entry in Hin. destruct Hin as (e & _ & ->).
  split; reflexivity.
Qed.

(** C3.  A ticket without a first response gets the verdict [null] for
    response; it is in neither list whose lengths make the response
    percentage (the responded tickets and, among them, those within the
    target), so the overall percentage and the percentage of every
    analyst are what they are without that ticket.  The same holds for a
    ticket without a closure and the resolution percentage. *)
Theorem unknown_ticket_not_counted (t : TicketWithTimes)
    (l1 l2 : list TicketWithTimes) (selectedAnalyst : string) (caller : Caller) :
  (first_response_at t = None ->
     isWithinSla t response = None /\
     ~ In t (ticketsWithResponse (l1 ++ t :: l2)) /\
     ~ In t (ticketsWithinResponseSla (l1 ++ t :: l2)) /\
     ticketsWithResponse (l1 ++ t :: l2) = ticketsWithResponse (l1 ++ l2) /\
     ticketsWithinResponseSla (l1 ++ t :: l2) = ticketsWithinResponseSla (l1 ++ l2) /\
     responseCompliance (sla (aggregate (l1 ++ t :: l2) selectedAnalyst caller)) =
       responseCompliance (sla (aggregate (l1 ++ l2) selectedAnalyst caller)) /\
     forall m, In m (perAnalyst (aggregate (l1 ++ t :: l2) selectedAnalyst caller)) ->
               sla_response_compliance m =
                 compliance_response (analystTickets (analyst_id m) (l1 ++ l2))) /\
  (closed_at t = None ->
     isWithinSla t resolution = None /\
     ~ In t (ticketsResolved (l1 ++ t :: l2)) /\
     ~ In t (ticketsWithinResolutionSla (l1 ++ t :: l2)) /\
     ticketsResolved (l1 ++ t :: l2) = ticketsResolved (l1 ++ l2) /\
     ticketsWithinResolutionSla (l1 ++ t :: l2) = ticketsWithinResolutionSla (l1 ++ l2) /\
     resolutionCompliance (sla (aggregate (l1 ++ t :: l2) selectedAnalyst caller)) =
       resolutionCompliance (sla (aggregate (l1 ++ l2) selectedAnalyst caller)) /\
     forall m, In m (perAnalyst (aggregate (l1 ++ t :: l2) selectedAnalyst caller)) ->
               sla_resolution_compliance m =
                 compliance_resolution (analystTickets (analyst_id m) (l1 ++ l2))).
Proof.
  split; intros Hnone.
  - assert (Hp : has_response t = false) by (unfold has_response; now rewrite Hnone).
    assert (Hd : ticketsWithResponse (l1 ++ t :: l2) = ticketsWithResponse (l1 ++ l2))
      by (apply filter_drop; exact Hp).
    assert (Hn : ~ In t (ticketsWithResponse (l1 ++ t :: l2))).
    { unfold ticketsWithResponse. rewrite filter_In. intros [_ H]. congruence. }
    split; [unfold isWithinSla; now rewrite Hnone|].
    split; [exact Hn|].
    split.
    { unfold ticketsWithinResponseSla. rewrite filter_In. tauto. }
    split; [exact Hd|].
    split; [unfold ticketsWithinResponseSla; now rewrite Hd|].
    split.
    + simpl. unfold compliance_response, ticketsWithinResponseSla,
        ticketsWithResponse, assignedTickets.
      now rewrite (filter_filter_drop has_response _ t l1 l2 Hp).
    + intros m Hin. simpl in Hin.
      apply perAnalyst_compliance in Hin. destruct Hin as [-> _].
      rewrite analystTickets_not_null.
      unfold compliance_response, ticketsWithinResponseSla, ticketsWithResponse,
        analystTickets.
      now rewrite (filter_filter_drop has_response _ t l1 l2 Hp).
  - assert (Hp : has_closed t = false) by (unfold has_closed; now rewrite Hnone).
    assert (Hd : ticketsResolved (l1 ++ t :: l2) = ticketsResolved (l1 ++ l2))
      by (apply filter_drop; exact Hp).
    assert (Hn : ~ In t (ticketsResolved (l1 ++ t :: l2))).
    { unfold ticketsResolved. rewrite filter_In. intros [_ H]. congruence. }
    split; [unfold isWithinSla; now rewrite Hnone|].
    split; [exact Hn|].
    split.
    { unfold ticketsWithinResolutionSla. rewrite filter_In. tauto. }
    split; [exact Hd|].
    split; [unfold ticketsWithinResolutionSla; now rewrite Hd|].
    split.
    + simpl. unfold compliance_resolution, ticketsWithinResolutionSla,
        ticketsResolved, assignedTickets.
      now rewrite (filter_filter_drop has_closed _ t l1 l2 Hp).
    + intros m Hin. simpl in Hin.
      apply perAnalyst_compliance in Hin. destruct Hin as [_ ->].
      rewrite analystTickets_not_null.
      unfold compliance_resolution, ticketsWithinResolutionSla, ticketsResolved,
        analystTickets.
      now rewrite (filter_filter_drop has_closed _ t l1 l2 Hp).
Qed.

(** Scenario C: two tickets of one analyst, one answered within the
    target and one not answered yet: 100 percent over a denominator of
    one, and two tickets in total. *)
Example scenarioC :
  let pending := Sample.ticket (Sample.jan1 2 0) "high" None None (Some "ana"%string) in
  let shown := perAnalyst (aggregate [pending; Sample.scenarioA] "all" Sample.root) in
  map analyst_id shown = ["ana"%string] /\
  map total_tickets shown = [2] /\
  map (fun m => Qred (sla_response_compliance m)) shown = [100%Q] /\
  Js.length (ticketsWithResponse [pending; Sample.scenarioA]) = 1.
Proof. repeat split; vm_compute; reflexivity. Qed.

Lemma unknown_ticket_not_counted_witness :
  let pending := Sample.ticket (Sample.jan1 2 0) "high" None None (Some "ana"%string) in
  isWithinSla pending response = None /\
  isWithinSla pending resolution = None /\
  Qred (responseCompliance (sla (aggregate [pending; Sample.scenarioA] "all" Sample.root)))
    = 100%Q.
Proof.
  intros pending.
  destruct (unknown_ticket_not_counted pending [] [Sample.scenarioA] "all" Sample.root)
    as [Hresp Hreso].
  destruct (Hresp eq_refl) as (Hv & _ & _ & _ & _ & Hc & _).
  destruct (Hreso eq_refl) as (Hv' & _).
  split; [exact Hv|]. split; [exact Hv'|].
  change ([pending; Sample.scenarioA]) with ([] ++ pending :: [Sample.scenarioA]).
  rewrite Hc. vm_compute. reflexivity.
Defined.

End Unknown.

(** ** The role filter *)

Section RoleFilter.

(** What an admin's overall statistics range over, in the source's own
    terms: the tickets with a truthy [assigned_to], of the selected
    analyst unless the selection is ["all"]. *)
Lemma admin_is_mine (caller : Caller) (selectedAnalyst : string) (t : TicketWithTimes) :
  role caller = admin ->
  is_mine caller selectedAnalyst t =
    Js.truthy (assigned_to t)
    && (String.eqb selectedAnalyst "all" || Js.strict_eq (assigned_to t) selectedAnalyst).
Proof.
  intros Hr. unfold is_mine. rewrite Hr.
  destruct (Js.truthy (assigned_to t)); simpl; [|reflexivity].
  now destruct (String.eqb selectedAnalyst "all").
Qed.

Lemma truthy_not_null (v : option string) :
  v <> Some EmptyString -> Js.truthy v = not_null v.
Proof.
  destruct v as [s|]; simpl; [|reflexivity].
  intros H. destruct (String.eqb_spec s EmptyString); [congruence | reflexivity].
Qed.

Lemma filter_andb {A : Type} (p q : A -> bool) (l : list A) :
  filter (fun x => p x && q x) l = filter q (filter p l).
Proof.
  induction l as [|x l IH]; simpl; [reflexivity|].
  destruct (p x); simpl; [destruct (q x)|]; now rewrite IH.
Qed.

(** C7.  For an admin, over tickets whose analyst identities are not the
    empty string, the overall statistics and the SLA percentages are
    computed over exactly the date-filtered tickets with a non-null
    [assigned_to], all of them when the analyst filter is ["all"] and
    those of the selected analyst otherwise. *)
Theorem admin_overall_ticket_set (dateRange : DateRange)
    (allTicketsData : list TicketWithTimes) (selectedAnalyst : string) (caller : Caller) :
  role caller = admin ->
  (forall t, In t allTicketsData -> assigned_to t <> Some EmptyString) ->
  let loaded := tickets (fetchTicketsWithMetrics dateRange allTicketsData) in
  let chosen :=
    filter (fun t => not_null (assigned_to t)
                     && (String.eqb selectedAnalyst "all"
                         || Js.strict_eq (assigned_to t) selectedAnalyst)) loaded in
  assignedTickets caller selectedAnalyst loaded = chosen /\
  overall (aggregate loaded selectedAnalyst caller) = overallStats chosen /\
  sla (aggregate loaded selectedAnalyst caller) = slaStats chosen /\
  (selectedAnalyst = "all"%string ->
     chosen = filter (fun t => not_null (assigned_to t)) loaded) /\
  (selectedAnalyst <> "all"%string ->
     chosen = filter (fun t => Js.strict_eq (assigned_to t) selectedAnalyst)
                (filter (fun t => not_null (assigned_to t)) loaded)).
Proof.
  intros Hr Hids loaded chosen.
  assert (E : assignedTickets caller selectedAnalyst loaded = chosen).
  { unfold assignedTickets, chosen. apply filter_ext_in.
    intros t Ht. rewrite admin_is_mine by assumption.
    rewrite truthy_not_null; [reflexivity|].
    apply Hids. unfold loaded in Ht. simpl in Ht.
    unfold filteredTickets in Ht. apply filter_In in Ht. tauto. }
  split; [exact E|].
  split; [simpl; fold loaded; now rewrite E|].
  split; [simpl; fold loaded; now rewrite E|].
  split.
  - intros ->. unfold chosen. apply filter_ext. intros t. simpl.
    now rewrite andb_true_r.
  - intros Hsel. unfold chosen.
    apply String.eqb_neq in Hsel. rewrite Hsel. simpl.
    apply filter_andb.
Qed.

Lemma admin_overall_ticket_set_witness :
  let r := {| range_start := Dates.date_only 2024 1 1;
              range_end := Dates.date_only 2024 1 1 |} in
  let free := Sample.ticket (Sample.jan1 3 0) "low" None None None in
  let bobs := Sample.ticket (Sample.jan1 4 0) "low" None None (Some "bob"%string) in
  assignedTickets Sample.root "bob" [free; bobs; Sample.scenarioA] = [bobs] /\
  totalTickets (overall (aggregate [free; bobs; Sample.scenarioA] "all" Sample.root)) = 2.
Proof.
  intros r free bobs.
  assert (Hids : forall t, In t [free; bobs; Sample.scenarioA] ->
                           assigned_to t <> Some EmptyString).
  { intros t [<-|[<-|[<-|[]]]]; discriminate. }
  destruct (admin_overall_ticket_set r [free; bobs; Sample.scenarioA] "bob"
              Sample.root eq_refl Hids) as (E & _).
  destruct (admin_overall_ticket_set r [free; bobs; Sample.scenarioA] "all"
              Sample.root eq_refl Hids) as (_ & O & _).
  split.
  - exact E.
  - change (tickets (fetchTicketsWithMetrics r [free; bobs; Sample.scenarioA]))
      with [free; bobs; Sample.scenarioA] in O.
    rewrite O. reflexivity.
Defined.

End RoleFilter.

(** ** Averages *)

Section Averages.

(** One step of an induction over a list all of whose members satisfy [H]:
    [H] at the head, the induction hypothesis on the tail. *)
Ltac head_then_tail H IH :=
  rewrite H by (now left); apply IH; intros ? ?; apply H; now right.

Lemma fold_sum_response (l : list TicketWithTimes) (acc : Z) :
  fold_left (fun acc t =>
               match first_response_at t with
               | Some fr => acc + Dates.differenceInMinutes fr (created_at t)
               | None => acc
               end) l acc = acc + elapsed_total first_response_at l.
Proof.
  revert acc. induction l as [|t l IH]; intros acc; simpl; [lia|].
  rewrite IH. destruct (first_response_at t); lia.
Qed.

Lemma fold_sum_resolution (l : list TicketWithTimes) (acc : Z) :
  fold_left (fun acc t =>
               match closed_at t with
               | Some cl => acc + Dates.differenceInMinutes cl (created_at t)
               | None => acc
               end) l acc = acc + elapsed_total closed_at l.
Proof.
  revert acc. induction l as [|t l IH]; intros acc; simpl; [lia|].
  rewrite IH. destruct (closed_at t); lia.
Qed.

Lemma sum_response_total (l : list TicketWithTimes) :
  sum_response l = elapsed_total first_response_at l.
Proof. unfold sum_response. now rewrite fold_sum_response. Qed.

Lemma sum_resolution_total (l : list TicketWithTimes) :
  sum_resolution l = elapsed_total closed_at l.
Proof. unfold sum_resolution. now rewrite fold_sum_resolution. Qed.

Lemma elapsed_total_none (milestone : TicketWithTimes -> option Z)
    (l : list TicketWithTimes) :
  (forall t, In t l -> milestone t = None) -> elapsed_total milestone l = 0.
Proof.
  induction l as [|t l IH]; intros H; simpl; [reflexivity|].
  head_then_tail H IH.
Qed.

Lemma filter_none {A : Type} (p : A -> bool) (l : list A) :
  (forall x, In x l -> p x = false) -> filter p l = [].
Proof.
  induction l as [|x l IH]; intros H; simpl; [reflexivity|].
  head_then_tail H IH.
Qed.

Lemma running_mean_response_none (n : Z) (mean : Q) (ts : list TicketWithTimes) :
  (forall t, In t ts -> first_response_at t = None) ->
  running_mean_response n mean ts = mean.
Proof.
  revert n. induction ts as [|t ts IH]; intros n H; simpl; [reflexivity|].
  head_then_tail H IH.
Qed.

Lemma running_mean_resolution_none (k : Z) (mean : Q) (ts : list TicketWithTimes) :
  (forall t, In t ts -> closed_at t = None) ->
  running_mean_resolution k mean ts = mean.
Proof.
  revert k. induction ts as [|t ts IH]; intros k H; simpl; [reflexivity|].
  head_then_tail H IH.
Qed.

(** C8.  With no ticket at all the overall statistics are five zeros and
    the per-analyst list is empty.  Whenever none of the tickets the
    overall statistics range over has a first response (a closure), the
    overall average response (resolution) time is the number 0: the
    denominator 0 is replaced by 1, where the quotient by the count
    itself would be [NaN].  An analyst none of whose tickets has a first
    response (a closure) keeps the initial average 0. *)
Theorem averages_zero_without_samples :
  (forall selectedAnalyst caller,
      aggregate [] selectedAnalyst caller =
        {| overall := {| totalTickets := 0; respondedTickets := 0;
                         resolvedTickets := 0; avgResponseTime := Num.Finite 0;
                         avgResolutionTime := Num.Finite 0 |};
           sla := {| responseCompliance := 0%Q; resolutionCompliance := 0%Q |};
           perAnalyst := [] |}) /\
  (forall tickets selectedAnalyst caller,
      (forall t, In t (assignedTickets caller selectedAnalyst tickets) ->
                 first_response_at t = None) ->
      let assigned := assignedTickets caller selectedAnalyst tickets in
      avgResponseTime (overall (aggregate tickets selectedAnalyst caller))
        = Num.Finite 0 /\
      Num.div (sum_response assigned) (Js.length (filter has_response assigned))
        = Num.NaN) /\
  (forall tickets selectedAnalyst caller,
      (forall t, In t (assignedTickets caller selectedAnalyst tickets) ->
                 closed_at t = None) ->
      let assigned := assignedTickets caller selectedAnalyst tickets in
      avgResolutionTime (overall (aggregate tickets selectedAnalyst caller))
        = Num.Finite 0 /\
      Num.div (sum_resolution assigned) (Js.length (filter has_closed assigned))
        = Num.NaN) /\
  (forall tickets selectedAnalyst caller m,
      In m (perAnalyst (aggregate tickets selectedAnalyst caller)) ->
      (forall t, In t (analystTickets (analyst_id m) tickets) ->
                 first_response_at t = None) ->
      avg_response_time m = 0%Q) /\
  (forall tickets selectedAnalyst caller m,
      In m (perAnalyst (aggregate tickets selectedAnalyst caller)) ->
      (forall t, In t (analystTickets (analyst_id m) tickets) ->
                 closed_at t = None) ->
      avg_resolution_time m = 0%Q).
Proof.
  split; [reflexivity|].
  split; [|split; [|split]].
  - intros tickets sel caller H assigned. subst assigned. simpl.
    rewrite sum_response_total, (elapsed_total_none _ _ H).
    rewrite filter_none; [split; reflexivity|].
    intros t Ht. unfold has_response. now rewrite (H t Ht).
  - intros tickets sel caller H assigned. subst assigned. simpl.
    rewrite sum_resolution_total, (elapsed_total_none _ _ H).
    rewrite filter_none; [split; reflexivity|].
    intros t Ht. unfold has_closed. now rewrite (H t Ht).
  - intros tickets sel caller m Hin H. simpl in Hin.
    destruct (perAnalyst_fields _ _ Hin) as (_ & _ & _ & _ & -> & _).
    rewrite analystTickets_not_null. now apply running_mean_response_none.
  - intros tickets sel caller m Hin H. simpl in Hin.
    destruct (perAnalyst_fields _ _ Hin) as (_ & _ & _ & _ & _ & ->).
    rewrite analystTickets_not_null. now apply running_mean_resolution_none.
Qed.

Lemma averages_zero_without_samples_witness :
  let pending := Sample.ticket (Sample.jan1 2 0) "high" None None (Some "ana"%string) in
  avgResponseTime (overall (aggregate [pending] "all" Sample.root)) = Num.Finite 0 /\
  avgResolutionTime (overall (aggregate [pending] "all" Sample.root)) = Num.Finite 0 /\
  totalTickets (overall (aggregate [pending] "all" Sample.root)) = 1.
Proof.
  intros pending.
  destruct averages_zero_without_samples as (_ & Hresp & Hreso & _).
  split; [|split; [|reflexivity]].
  - apply Hresp. intros t Ht. simpl in Ht. destruct Ht as [<-|[]]. reflexivity.
  - apply Hreso. intros t Ht. simpl in Ht. destruct Ht as [<-|[]]. reflexivity.
Defined.

End Averages.

(** ** Milestones before the creation *)

Section NegativeElapsed.

Lemma differenceInMinutes_nonpos (a b : Z) :
  a < b -> Dates.differenceInMinutes a b <= 0.
Proof.
  intros Hab. unfold Dates.differenceInMinutes, Dates.msPerMinute.
  replace (a - b) with (- (b - a)) by lia.
  rewrite Z.quot_opp_l by lia.
  pose proof (Z.quot_pos (b - a) 60000). lia.
Qed.

Lemma or_one_not_zero (n : Z) : or_one n <> 0.
Proof. unfold or_one. destruct (Z.eqb_spec n 0); lia. Qed.

Lemma div_or_one (a n : Z) :
  Num.div a (or_one n) = Num.Finite (inject_Z a / inject_Z (or_one n)).
Proof.
  unfold Num.div. destruct (Z.eqb_spec (or_one n) 0) as [E|_]; [|reflexivity].
  now apply or_one_not_zero in E.
Qed.

(** C9.  No input is rejected and no failure value is produced.  For
    every ticket with a first response (closure), also one that lies
    before the creation, the verdict is the boolean comparison of the
    elapsed minutes with the target: [elapsed <= n] for a target of [n]
    minutes.  When the milestone lies before the creation the elapsed
    minutes are the truncated, non-positive difference and, for a priority
    that does not name an inherited member, the verdict is true.  The
    overall averages are always finite numbers: the plain sum of all
    elapsed minutes, negative ones as they are, divided by the guarded
    count.  The per-analyst means fold the same raw samples, and whether a
    ticket is aggregated depends on its assignee only, never on its
    timestamps. *)
Theorem negative_elapsed_is_computed :
  (forall t fr, first_response_at t = Some fr ->
      let e := Dates.differenceInMinutes fr (created_at t) in
      isWithinSla t response
        = Some (within_target e (getSlaTarget (priority t) response)) /\
      (forall n, getSlaTarget (priority t) response = Minutes n ->
                 isWithinSla t response = Some (e <=? n)) /\
      (fr < created_at t ->
         e <= 0 /\
         ((forall p, priority t = Some p -> ~ In p Object_prototype_members) ->
          isWithinSla t response = Some true))) /\
  (forall t cl, closed_at t = Some cl ->
      let e := Dates.differenceInMinutes cl (created_at t) in
      isWithinSla t resolution
        = Some (within_target e (getSlaTarget (priority t) resolution)) /\
      (forall n, getSlaTarget (priority t) resolution = Minutes n ->
                 isWithinSla t resolution = Some (e <=? n)) /\
      (cl < created_at t ->
         e <= 0 /\
         ((forall p, priority t = Some p -> ~ In p Object_prototype_members) ->
          isWithinSla t resolution = Some true))) /\
  (forall assigned,
      avgResponseTime (overallStats assigned) =
        Num.Finite (inject_Z (elapsed_total first_response_at assigned)
                      / inject_Z (or_one (Js.length (filter has_response assigned)))) /\
      avgResolutionTime (overallStats assigned) =
        Num.Finite (inject_Z (elapsed_total closed_at assigned)
                      / inject_Z (or_one (Js.length (filter has_closed assigned))))) /\
  (forall ticketsData m, In m (calculateAnalystMetrics ticketsData) ->
      avg_response_time m =
        running_mean_response 0 0 (analystTickets (analyst_id m) ticketsData) /\
      avg_resolution_time m =
        running_mean_resolution 0 0 (analystTickets (analyst_id m) ticketsData)) /\
  (forall caller selectedAnalyst t t',
      assigned_to t = assigned_to t' ->
      is_mine caller selectedAnalyst t = is_mine caller selectedAnalyst t').
Proof.
  assert (Hnonpos : forall e priority type,
             e <= 0 ->
             (forall p, priority = Some p -> ~ In p Object_prototype_members) ->
             within_target e (getSlaTarget priority type) = true).
  { intros e priority type He Hp.
    destruct (getSlaTarget_cases priority type) as [(n & -> & Hn)|(p & Ep & Hm & _)].
    - simpl. apply Z.leb_le. lia.
    - exfalso. exact (Hp p Ep Hm). }
  split; [|split; [|split; [|split]]].
  - intros t fr Hfr e.
    assert (Hv : isWithinSla t response
                 = Some (within_target e (getSlaTarget (priority t) response)))
      by (unfold isWithinSla; now rewrite Hfr).
    split; [exact Hv|]. split.
    + intros n En. rewrite Hv, En. reflexivity.
    + intros Hlt.
      assert (He : e <= 0) by (apply differenceInMinutes_nonpos; exact Hlt).
      split; [exact He|]. intros Hp. rewrite Hv. f_equal. now apply Hnonpos.
  - intros t cl Hcl e.
    assert (Hv : isWithinSla t resolution
                 = Some (within_target e (getSlaTarget (priority t) resolution)))
      by (unfold isWithinSla; now rewrite Hcl).
    split; [exact Hv|]. split.
    + intros n En. rewrite Hv, En. reflexivity.
    + intros Hlt.
      assert (He : e <= 0) by (apply differenceInMinutes_nonpos; exact Hlt).
      split; [exact He|]. intros Hp. rewrite Hv. f_equal. now apply Hnonpos.
  - intros assigned. simpl.
    now rewrite !div_or_one, sum_response_total, sum_resolution_total.
  - intros ticketsData m Hin.
    destruct (perAnalyst_fields _ _ Hin) as (_ & _ & _ & _ & Hresp & Hreso).
    split; assumption.
  - intros caller sel t t' E. unfold is_mine. now rewrite E.
Qed.

Lemma negative_elapsed_is_computed_witness :
  let early := Sample.ticket (Sample.jan1 2 0) "critical"
                 (Some (Sample.jan1 0 30)) (Some (Sample.jan1 1 0))
                 (Some "ana"%string) in
  let late := Sample.ticket (Sample.jan1 0 0) "high"
                (Some (Sample.jan1 1 1)) None (Some "ana"%string) in
  Dates.differenceInMinutes (Sample.jan1 0 30) (created_at early) = -90 /\
  isWithinSla early response = Some true /\
  isWithinSla early resolution = Some true /\
  isWithinSla late response = Some false /\
  avgResponseTime (overallStats [early]) = Num.Finite (-90 # 1) /\
  avgResolutionTime (overallStats [early]) = Num.Finite (-60 # 1) /\
  map avg_response_time (calculateAnalystMetrics [early]) = [(-90 # 1)%Q].
Proof.
  intros early late.
  destruct negative_elapsed_is_computed as (Hresp & Hreso & Havg & _).
  assert (Hp : forall p, priority early = Some p -> ~ In p Object_prototype_members).
  { intros p Ep. injection Ep as <-. unfold Object_prototype_members. simpl.
    intros H. repeat (destruct H as [H|H]; [discriminate H|]). exact H. }
  destruct (Hresp early (Sample.jan1 0 30) eq_refl) as (_ & _ & Hneg).
  destruct Hneg as (_ & Hv); [vm_compute; reflexivity|].
  destruct (Hreso early (Sample.jan1 1 0) eq_refl) as (_ & _ & Hneg').
  destruct Hneg' as (_ & Hv'); [vm_compute; reflexivity|].
  destruct (Hresp late (Sample.jan1 1 1) eq_refl) as (_ & Hcmp & _).
  destruct (Havg [early]) as (Ha & Hb).
  split; [vm_compute; reflexivity|].
  split; [exact (Hv Hp)|]. split; [exact (Hv' Hp)|].
  split; [exact (Hcmp 60 eq_refl)|].
  split; [rewrite Ha; vm_compute; reflexivity|].
  split; [rewrite Hb; vm_compute; reflexivity|].
  vm_compute. reflexivity.
Defined.

End NegativeElapsed.

(** ** The per-analyst list *)

Section PerAnalystClaims.

(** C4.  In every entry the average response time is the fold
    [newMean = (oldMean*(n-1) + sample)/n] over the analyst's tickets in
    list order, where [n] counts every ticket of the analyst processed so
    far and the mean changes only at tickets with a first response; the
    average resolution time is the same fold with the running count of
    resolved tickets as [n].  Every analyst with a ticket has an entry. *)
Theorem averages_are_running_means (ticketsData : list TicketWithTimes) :
  (forall m, In m (calculateAnalystMetrics ticketsData) ->
      let mine := analystTickets (analyst_id m) ticketsData in
      avg_response_time m = running_mean_response 0 0 mine /\
      avg_resolution_time m = running_mean_resolution 0 0 mine /\
      total_tickets m = Js.length mine /\
      resolved_tickets m = Js.length (filter has_closed mine)) /\
  (forall a, a <> EmptyString -> analystTickets a ticketsData <> [] ->
      exists m, In m (calculateAnalystMetrics ticketsData) /\ analyst_id m = a).
Proof.
  split.
  - intros m Hin mine.
    destruct (perAnalyst_fields _ _ Hin) as (_ & _ & Htot & Hres & Hresp & Hreso).
    repeat split; assumption.
  - intros a Ha Hne.
    destruct (entry_exists a Ha _ Hne) as (e & Hin).
    exists (with_compliance ticketsData e). split.
    + unfold calculateAnalystMetrics, map_values.
      apply in_map. change e with (snd (a, e)). now apply in_map.
    + simpl. exact (entry_id _ _ _ Hin).
Qed.

(** The position, not the number of responses, divides: an unanswered
    ticket followed by one answered after 10 minutes gives 5; the
    resolution mean of two closures after 10 and 30 minutes with an open
    ticket between them is 20. *)
Example running_mean_by_position :
  let c := Sample.jan1 0 0 in
  let open := Sample.ticket c "low" None None (Some "ana"%string) in
  let r10 := Sample.ticket c "low" (Some (Sample.jan1 0 10)) (Some (Sample.jan1 0 10))
               (Some "ana"%string) in
  let r30 := Sample.ticket c "low" None (Some (Sample.jan1 0 30)) (Some "ana"%string) in
  map (fun m => Qred (avg_response_time m)) (calculateAnalystMetrics [open; r10])
    = [5%Q] /\
  map (fun m => Qred (avg_resolution_time m)) (calculateAnalystMetrics [r10; open; r30])
    = [20%Q].
Proof. split; vm_compute; reflexivity. Qed.

Lemma averages_are_running_means_witness :
  let c := Sample.jan1 0 0 in
  let open := Sample.ticket c "low" None None (Some "ana"%string) in
  let r10 := Sample.ticket c "low" (Some (Sample.jan1 0 10)) None (Some "ana"%string) in
  exists m, In m (calculateAnalystMetrics [open; r10]) /\
            analyst_id m = "ana"%string /\
            avg_response_time m = running_mean_response 0 0 [open; r10] /\
            total_tickets m = 2.
Proof.
  intros c open r10.
  destruct (averages_are_running_means [open; r10]) as (Hall & Hex).
  destruct (Hex "ana"%string) as (m & Hin & Hid);
    [discriminate | vm_compute; discriminate |].
  exists m. split; [exact Hin|]. split; [exact Hid|].
  destruct (Hall m Hin) as (Hresp & _ & Htot & _).
  rewrite Hid in Hresp, Htot. split; [exact Hresp | exact Htot].
Defined.



End PerAnalystClaims.

(** ** Who sees which analyst *)

Section Visibility.

(** C2, evaluated for a caller with the analyst role and the identity
    ["ana"], when one loaded ticket is assigned to ["bob"].  The overall
    statistics are restricted to the caller's own ticket; the per-analyst
    list is not: it also holds the entry computed from bob's ticket,
    whatever the selected analyst is. *)
Theorem analyst_sees_other_analysts :
  let bobs := Sample.ticket (Sample.jan1 4 0) "low" None (Some (Sample.jan1 5 0))
                (Some "bob"%string) in
  let loaded := [bobs; Sample.scenarioA] in
  role Sample.ana = analyst /\
  assignedTickets Sample.ana "bob" loaded = [Sample.scenarioA] /\
  totalTickets (overall (aggregate loaded "bob" Sample.ana)) = 1 /\
  map analyst_id (perAnalyst (aggregate loaded "bob" Sample.ana))
    = ["bob"%string; "ana"%string] /\
  map analyst_id (perAnalyst (aggregate loaded "all" Sample.ana))
    = ["bob"%string; "ana"%string] /\
  map total_tickets (perAnalyst (aggregate loaded "all" Sample.ana)) = [1; 1] /\
  map resolved_tickets (perAnalyst (aggregate loaded "all" Sample.ana)) = [1; 0].
Proof. repeat split; vm_compute; reflexivity. Qed.

(** The per-analyst list depends on the loaded tickets only: neither the
    caller nor the selected analyst enters it. *)
Lemma perAnalyst_ignores_caller (loaded : list TicketWithTimes)
    (sel sel' : string) (caller caller' : Caller) :
  perAnalyst (aggregate loaded sel caller) = perAnalyst (aggregate loaded sel' caller').
Proof. reflexivity. Qed.

(** The overall statistics of a caller who is not an admin range over the
    caller's own tickets, whatever analyst is selected. *)
Lemma non_admin_overall_own_tickets (loaded : list TicketWithTimes)
    (sel : string) (caller : Caller) :
  role caller <> admin ->
  assignedTickets caller sel loaded =
    filter (fun t => Js.truthy (assigned_to t)
                     && Js.strict_eq_opt (assigned_to t) (profile_id caller)) loaded.
Proof.
  intros Hr. unfold assignedTickets. apply filter_ext. intros t. unfold is_mine.
  destruct (Js.truthy (assigned_to t)); simpl; [|reflexivity].
  destruct (role caller); [contradiction | reflexivity | reflexivity].
Qed.

End Visibility.

(** * Properties of the rest of the page *)

(** ** Rounding *)

Section Rounding.

Lemma Qfloor_ge (y : Q) (z : Z) : (inject_Z z <= y)%Q -> z <= Qfloor y.
Proof. intros H. rewrite <- (Qfloor_Z z). now apply Qfloor_resp_le. Qed.

Lemma Qfloor_lt (y : Q) (z : Z) : (y < inject_Z z)%Q -> Qfloor y < z.
Proof.
  intros H. pose proof (Qfloor_le y) as Hle.
  assert (Hlt : (inject_Z (Qfloor y) < inject_Z z)%Q) by lra.
  now rewrite <- Zlt_Qlt in Hlt.
Qed.

Lemma Qfloor_unique (y : Q) (z : Z) :
  (inject_Z z <= y)%Q -> (y < inject_Z (z + 1))%Q -> Qfloor y = z.
Proof.
  intros H1 H2. pose proof (Qfloor_ge _ _ H1). pose proof (Qfloor_lt _ _ H2). lia.
Qed.

Lemma Qlt_bool_iff (x y : Q) : Num.Qlt_bool x y = true <-> (x < y)%Q.
Proof.
  unfold Num.Qlt_bool. rewrite negb_true_iff.
  destruct (Qle_bool y x) eqn:E.
  - apply Qle_bool_iff in E. split; [discriminate | lra].
  - split; [|reflexivity]. intros _.
    destruct (Qlt_le_dec x y) as [H|H]; [exact H|].
    apply Qle_bool_iff in H. congruence.
Qed.

(** On a rational that is not negative, truncation is the floor. *)
Lemma trunc_floor (x : Q) : (0 <= x)%Q -> Num.trunc x = Qfloor x.
Proof.
  intros H. unfold Num.trunc. destruct x as [n d]. simpl.
  unfold Qle in H. simpl in H.
  apply Z.quot_div_nonneg; lia.
Qed.

(** Below [60 * (h + 1)] and from [60 * h] on, the hour count is [h] and
    the remainder is what is left above the full hours. *)
Lemma hours_and_rest (minutes : Q) (h : Z) :
  0 <= h -> (inject_Z h * 60 <= minutes)%Q -> (minutes < inject_Z (h + 1) * 60)%Q ->
  Num.Math_floor (minutes / 60) = h /\
  Num.rem minutes 60 == minutes - inject_Z h * 60.
Proof.
  intros Hh Hlo Hhi.
  assert (E : (minutes / 60 * 60 == minutes)%Q) by (field; discriminate).
  set (y := (minutes / 60)%Q) in *.
  rewrite inject_Z_plus in Hhi. change (inject_Z 1) with 1%Q in Hhi.
  assert (Hy0 : (inject_Z h <= y)%Q) by lra.
  assert (Hy1 : (y < inject_Z (h + 1))%Q)
    by (rewrite inject_Z_plus; change (inject_Z 1) with 1%Q; lra).
  assert (Hf : Qfloor y = h) by (apply Qfloor_unique; assumption).
  split; [exact Hf|].
  unfold Num.rem. fold y. rewrite trunc_floor, Hf; [ring|].
  assert (0 <= inject_Z h)%Q by (change 0%Q with (inject_Z 0); now rewrite <- Zle_Qle).
  lra.
Qed.

Lemma Math_round_Z (z : Z) : Num.Math_round (inject_Z z) = z.
Proof.
  unfold Num.Math_round. apply Qfloor_unique.
  - lra.
  - rewrite inject_Z_plus. change (inject_Z 1) with 1%Q. lra.
Qed.

End Rounding.

(** ** [formatMinutes] *)

Section FormatMinutes.

Lemma Qlt_bool_inject (m k : Z) : Num.Qlt_bool (inject_Z m) (inject_Z k) = (m <? k).
Proof.
  destruct (Z.ltb_spec m k) as [H|H].
  - apply Qlt_bool_iff. now rewrite <- Zlt_Qlt.
  - destruct (Num.Qlt_bool (inject_Z m) (inject_Z k)) eqn:E; [|reflexivity].
    apply Qlt_bool_iff in E. rewrite <- Zlt_Qlt in E. lia.
Qed.

Lemma Math_round_comp (x y : Q) : x == y -> Num.Math_round x = Num.Math_round y.
Proof. intros E. unfold Num.Math_round. apply Qfloor_comp. now rewrite E. Qed.

(** X1.  On a whole number of minutes the text is exact below one day:
    the minutes themselves below 60 (negative ones included), then the
    hours and the minutes left, which add up to the input.  From one day
    on the days and the hours left are shown and the minutes are
    dropped. *)
Theorem formatMinutes_whole_minutes (m : Z) :
  duration_of (inject_Z m) =
    (if m <? 60 then Mins m
     else if m <? 1440 then HoursMins (m / 60) (m mod 60)
     else DaysHours (m / 1440) ((m / 60) mod 24)) /\
  (60 <= m < 1440 -> 60 * (m / 60) + m mod 60 = m /\ 0 <= m mod 60 < 60) /\
  (1440 <= m ->
     0 <= (m / 60) mod 24 < 24 /\
     0 <= m - (1440 * (m / 1440) + 60 * ((m / 60) mod 24)) < 60).
Proof.
  split; [|split].
  - unfold duration_of. change 60%Q with (inject_Z 60). rewrite Qlt_bool_inject.
    destruct (Z.ltb_spec m 60) as [Hlt|Hge]; [now rewrite Math_round_Z|].
    change (inject_Z 60) with 60%Q.
    destruct (hours_and_rest (inject_Z m) (m / 60)) as [Hf Hr].
    + apply Z.div_pos; lia.
    + change 60%Q with (inject_Z 60). rewrite <- inject_Z_mult, <- Zle_Qle.
      pose proof (Z.mul_div_le m 60). lia.
    + change 60%Q with (inject_Z 60). rewrite <- inject_Z_mult, <- Zlt_Qlt.
      pose proof (Z.mul_succ_div_gt m 60). lia.
    + rewrite Hf.
      assert (Hm : Num.Math_round (Num.rem (inject_Z m) 60) = m mod 60).
      { rewrite <- (Math_round_Z (m mod 60)). apply Math_round_comp.
        rewrite Hr. change 60%Q with (inject_Z 60).
        rewrite <- inject_Z_mult. unfold Qminus.
        rewrite <- inject_Z_opp, <- inject_Z_plus.
        apply inject_Z_injective. pose proof (Z.div_mod m 60). lia. }
      rewrite Hm.
      assert (Hh : (m / 60 <? 24) = (m <? 1440)).
      { destruct (Z.ltb_spec m 1440) as [H|H].
        - apply Z.ltb_lt. apply Z.div_lt_upper_bound; lia.
        - apply Z.ltb_ge. apply Z.div_le_lower_bound; lia. }
      rewrite Hh. destruct (m <? 1440); [reflexivity|].
      f_equal.
      * unfold Num.Math_floor. change 24%Q with (inject_Z 24).
        rewrite <- Zdiv_Qdiv, Z.div_div by lia. reflexivity.
      * apply Z.rem_mod_nonneg; [apply Z.div_pos; lia | lia].
  - intros Hm. pose proof (Z.div_mod m 60). pose proof (Z.mod_pos_bound m 60). lia.
  - intros Hm.
    pose proof (Z.div_mod m 60). pose proof (Z.mod_pos_bound m 60).
    pose proof (Z.div_mod (m / 60) 24). pose proof (Z.mod_pos_bound (m / 60) 24).
    assert (E : m / 1440 = m / 60 / 24) by (rewrite Z.div_div by lia; reflexivity).
    rewrite E. lia.
Qed.

Lemma formatMinutes_whole_minutes_witness :
  formatMinutes (inject_Z 240) = "4h 0min"%string /\
  formatMinutes (inject_Z 2880) = "2d 0h"%string /\
  60 * (90 / 60) + 90 mod 60 = 90.
Proof.
  destruct (formatMinutes_whole_minutes 90) as (_ & H & _).
  split; [vm_compute; reflexivity|]. split; [vm_compute; reflexivity|].
  apply H. lia.
Defined.

(** X2.  On an average that is not whole the minute count is rounded half
    up after the hours were cut off, so it lies between 0 and 60, and it is
    60 exactly when at most half a minute is missing to the next hour:
    119.5 minutes are shown as 1 hour and 60 minutes.  Below one hour the
    same happens from 59.5 minutes on. *)
Theorem formatMinutes_minute_part (minutes : Q) :
  ((minutes < 60)%Q ->
     duration_of minutes = Mins (Num.Math_round minutes) /\
     Num.Math_round minutes <= 60 /\
     (Num.Math_round minutes = 60 <-> ((119 # 2) <= minutes)%Q)) /\
  (forall h, 1 <= h < 24 ->
     (inject_Z h * 60 <= minutes)%Q -> (minutes < inject_Z (h + 1) * 60)%Q ->
     exists r,
       duration_of minutes = HoursMins h r /\
       0 <= r <= 60 /\
       (r = 60 <-> (inject_Z h * 60 + (119 # 2) <= minutes)%Q)).
Proof.
  split.
  - intros Hlt. unfold duration_of.
    rewrite (proj2 (Qlt_bool_iff minutes 60) Hlt).
    split; [reflexivity|].
    assert (Hup : Num.Math_round minutes < 61)
      by (unfold Num.Math_round; apply Qfloor_lt; change (inject_Z 61) with 61%Q; lra).
    split; [lia|]. split.
    + intros E. unfold Num.Math_round in E.
      pose proof (Qfloor_le (minutes + (1 # 2))) as Hle. rewrite E in Hle.
      change (inject_Z 60) with 60%Q in Hle. lra.
    + intros Hge.
      assert (60 <= Num.Math_round minutes)
        by (unfold Num.Math_round; apply Qfloor_ge; change (inject_Z 60) with 60%Q; lra).
      lia.
  - intros h Hh Hlo Hhi.
    destruct (hours_and_rest minutes h) as [Hf Hr]; [lia | assumption | assumption |].
    assert (H1 : (1 <= inject_Z h)%Q)
      by (change 1%Q with (inject_Z 1); rewrite <- Zle_Qle; lia).
    rewrite inject_Z_plus in Hhi. change (inject_Z 1) with 1%Q in Hhi.
    exists (Num.Math_round (Num.rem minutes 60)).
    assert (Hge60 : Num.Qlt_bool minutes 60 = false).
    { destruct (Num.Qlt_bool minutes 60) eqn:E; [|reflexivity].
      apply Qlt_bool_iff in E. lra. }
    split.
    + unfold duration_of. rewrite Hge60, Hf.
      destruct (Z.ltb_spec h 24); [reflexivity | lia].
    + unfold Num.Math_round.
      assert (Hlow : 0 <= Qfloor (Num.rem minutes 60 + (1 # 2)))
        by (apply Qfloor_ge; change (inject_Z 0) with 0%Q; lra).
      assert (Hup : Qfloor (Num.rem minutes 60 + (1 # 2)) < 61)
        by (apply Qfloor_lt; change (inject_Z 61) with 61%Q; lra).
      split; [lia|]. split.
      * intros E.
        pose proof (Qfloor_le (Num.rem minutes 60 + (1 # 2))) as Hle.
        rewrite E in Hle. change (inject_Z 60) with 60%Q in Hle. lra.
      * intros Hge.
        assert (60 <= Qfloor (Num.rem minutes 60 + (1 # 2)))
          by (apply Qfloor_ge; change (inject_Z 60) with 60%Q; lra).
        lia.
Qed.

Lemma formatMinutes_minute_part_witness :
  exists r, duration_of (239 # 2) = HoursMins 1 r /\ r = 60.
Proof.
  destruct (formatMinutes_minute_part (239 # 2)) as (_ & H).
  destruct (H 1) as (r & Hd & _ & Hr);
    [lia | vm_compute; discriminate | vm_compute; reflexivity |].
  exists r. split; [exact Hd|]. apply Hr. vm_compute. discriminate.
Defined.

End FormatMinutes.

(** ** Colours, icons and shares *)

Section Colours.

Lemma percentage_ge (k count total : Z) :
  0 < total ->
  (inject_Z k <= percentage count total)%Q <-> k * total <= 100 * count.
Proof.
  intros Hpos. unfold percentage.
  destruct (Z.ltb_spec 0 total) as [_|H]; [|lia].
  destruct total as [|p|p]; try lia.
  unfold Qle, Qdiv, Qmult, Qinv, inject_Z. cbn [Qnum Qden].
  rewrite Pos.mul_1_r. split; intros H; lia.
Qed.

Lemma percentage_no_total (count total : Z) :
  total <= 0 -> percentage count total = 0%Q.
Proof.
  intros H. unfold percentage. destruct (Z.ltb_spec 0 total); [lia | reflexivity].
Qed.

Lemma threshold_by_counts (k count total : Z) :
  0 < k -> 0 <= total ->
  Qle_bool (inject_Z k) (percentage count total) = (0 <? total) && (k * total <=? 100 * count).
Proof.
  intros Hk Ht. destruct (Z.ltb_spec 0 total) as [Hpos|Hz].
  - rewrite andb_true_l.
    destruct (Z.leb_spec (k * total) (100 * count)) as [H|H].
    + apply Qle_bool_iff. now apply percentage_ge.
    + destruct (Qle_bool (inject_Z k) (percentage count total)) eqn:E; [|reflexivity].
      apply Qle_bool_iff in E. apply percentage_ge in E; [lia | assumption].
  - rewrite andb_false_l, percentage_no_total by lia.
    destruct (Qle_bool (inject_Z k) 0) eqn:E; [|reflexivity].
    apply Qle_bool_iff in E. change 0%Q with (inject_Z 0) in E.
    rewrite <- Zle_Qle in E. lia.
Qed.

Lemma colour_of_percentage (count total : Z) :
  0 <= total ->
  let c := percentage count total in
  (getSlaComplianceColor c = "text-green-600"%string
     <-> 0 < total /\ 9 * total <= 10 * count) /\
  (getSlaComplianceColor c = "text-yellow-600"%string
     <-> 0 < total /\ 7 * total <= 10 * count < 9 * total) /\
  (getSlaComplianceColor c = "text-red-600"%string
     <-> total = 0 \/ 10 * count < 7 * total) /\
  icon_name (getSlaComplianceIcon c) =
    (if String.eqb (getSlaComplianceColor c) "text-green-600" then CheckCircle
     else if String.eqb (getSlaComplianceColor c) "text-yellow-600" then AlertTriangle
     else XCircle).
Proof.
  intros Ht c. unfold getSlaComplianceColor, getSlaComplianceIcon, c.
  change 90%Q with (inject_Z 90). change 70%Q with (inject_Z 70).
  rewrite !threshold_by_counts by lia.
  destruct (Z.ltb_spec 0 total) as [Hpos|Hz]; rewrite ?andb_true_l, ?andb_false_l.
  - destruct (Z.leb_spec (90 * total) (100 * count)) as [H9|H9];
      [|destruct (Z.leb_spec (70 * total) (100 * count)) as [H7|H7]]; cbn [String.eqb];
      (split; [|split; [|split]]);
      try reflexivity;
      (split; [try discriminate; intros _ | intros HH; try reflexivity]);
      lia.
  - (split; [|split; [|split]]); try reflexivity;
      (split; [try discriminate; intros _ | intros HH; try reflexivity]);
      lia.
Qed.

(** X3.  The colour of a compliance percentage, read in ticket counts: it
    is green when at least nine in ten of the measurable tickets are within
    the target, yellow from seven in ten, red below; with no measurable
    ticket at all the percentage is 0 and the colour red.  The icon always
    goes with the colour: check for green, warning triangle for yellow,
    cross for red. *)
Theorem compliance_colour_by_counts (assigned : list TicketWithTimes) :
  let responded := Js.length (ticketsWithResponse assigned) in
  let in_time := Js.length (ticketsWithinResponseSla assigned) in
  let closed := Js.length (ticketsResolved assigned) in
  let closed_in_time := Js.length (ticketsWithinResolutionSla assigned) in
  let c := responseCompliance (slaStats assigned) in
  let c' := resolutionCompliance (slaStats assigned) in
  (getSlaComplianceColor c = "text-green-600"%string
     <-> 0 < responded /\ 9 * responded <= 10 * in_time) /\
  (getSlaComplianceColor c = "text-yellow-600"%string
     <-> 0 < responded /\ 7 * responded <= 10 * in_time < 9 * responded) /\
  (getSlaComplianceColor c = "text-red-600"%string
     <-> responded = 0 \/ 10 * in_time < 7 * responded) /\
  (getSlaComplianceColor c' = "text-green-600"%string
     <-> 0 < closed /\ 9 * closed <= 10 * closed_in_time) /\
  (getSlaComplianceColor c' = "text-yellow-600"%string
     <-> 0 < closed /\ 7 * closed <= 10 * closed_in_time < 9 * closed) /\
  (getSlaComplianceColor c' = "text-red-600"%string
     <-> closed = 0 \/ 10 * closed_in_time < 7 * closed) /\
  (forall x, x = c \/ x = c' ->
     icon_name (getSlaComplianceIcon x) =
       (if String.eqb (getSlaComplianceColor x) "text-green-600" then CheckCircle
        else if String.eqb (getSlaComplianceColor x) "text-yellow-600" then AlertTriangle
        else XCircle)).
Proof.
  intros responded in_time closed closed_in_time c c'.
  assert (H1 : 0 <= responded) by (unfold responded, Js.length; lia).
  assert (H2 : 0 <= closed) by (unfold closed, Js.length; lia).
  destruct (colour_of_percentage in_time responded H1) as (A1 & A2 & A3 & A4).
  destruct (colour_of_percentage closed_in_time closed H2) as (B1 & B2 & B3 & B4).
  repeat (split; [assumption|]).
  intros x [->| ->]; assumption.
Qed.

Lemma compliance_colour_by_counts_witness :
  getSlaComplianceColor (responseCompliance (slaStats [Sample.scenarioA]))
    = "text-green-600"%string /\
  getSlaComplianceColor (responseCompliance (slaStats [])) = "text-red-600"%string.
Proof.
  split.
  - apply (compliance_colour_by_counts [Sample.scenarioA]). vm_compute. split; [reflexivity | discriminate].
  - apply (compliance_colour_by_counts []). left. reflexivity.
Defined.

Lemma shareOfTotal_finite (count total : Z) :
  0 <= count <= total ->
  exists q, shareOfTotal count total = Num.Finite q /\
            (0 <= q <= 100)%Q /\ q == percentage count total.
Proof.
  intros [H0 H1]. unfold shareOfTotal, Num.div.
  destruct (Z.eqb_spec total 0) as [->|Hne].
  - assert (count = 0) by lia. subst count. simpl.
    exists 0%Q. split; [reflexivity|]. split; [lra | reflexivity].
  - simpl.
    assert (Hp : percentage count total = (inject_Z count / inject_Z total * 100)%Q)
      by (unfold percentage; destruct (Z.ltb_spec 0 total); [reflexivity | lia]).
    pose proof (percentage_bounds count total (conj H0 H1)) as Hb. rewrite Hp in Hb.
    destruct (Qeq_bool (inject_Z count / inject_Z total * 100) 0) eqn:E.
    + apply Qeq_bool_iff in E. exists 0%Q.
      split; [reflexivity|]. split; [lra|]. rewrite Hp. now symmetry.
    + eexists. split; [reflexivity|]. split; [exact Hb | now rewrite Hp].
Qed.

(** X4.  The two share-of-total captions never show [NaN] or an infinity:
    with no ticket the quotient [0 / 0] is replaced by 0, and otherwise the
    share is a number between 0 and 100. *)
Theorem shares_are_percentages (assigned : list TicketWithTimes) :
  (exists q, respondedShare (overallStats assigned) = Num.Finite q /\
             (0 <= q <= 100)%Q /\
             q == percentage (Js.length (filter has_response assigned))
                    (Js.length assigned)) /\
  (exists q, resolvedShare (overallStats assigned) = Num.Finite q /\
             (0 <= q <= 100)%Q /\
             q == percentage (Js.length (filter has_closed assigned))
                    (Js.length assigned)) /\
  respondedShare (overallStats []) = Num.Finite 0.
Proof.
  split; [|split; [|reflexivity]].
  - apply shareOfTotal_finite, length_filter_le.
  - apply shareOfTotal_finite, length_filter_le.
Qed.

End Colours.

(** ** Order of first appearance *)

Section FirstSeen.

Lemma existsb_eqb_In (k : string) (ks : list string) :
  existsb (String.eqb k) ks = true <-> In k ks.
Proof.
  rewrite existsb_exists. split.
  - intros (x & Hx & E). apply String.eqb_eq in E. now subst x.
  - intros H. exists k. split; [exact H | apply String.eqb_refl].
Qed.

Lemma see_In (acc : list string) (k x : string) :
  In x (see acc k) <-> In x acc \/ x = k.
Proof.
  unfold see. destruct (existsb (String.eqb k) acc) eqn:E.
  - apply existsb_eqb_In in E. split; [tauto|]. intros [H| ->]; assumption.
  - rewrite in_app_iff. simpl. intuition congruence.
Qed.

Lemma see_NoDup (acc : list string) (k : string) :
  NoDup acc -> NoDup (see acc k).
Proof.
  intros H. unfold see. destruct (existsb (String.eqb k) acc) eqn:E; [exact H|].
  assert (Hk : ~ In k acc).
  { intros Hin. apply existsb_eqb_In in Hin. congruence. }
  apply NoDup_app; [exact H | repeat constructor; simpl; tauto |].
  intros x Hx [<-|[]]. contradiction.
Qed.

Lemma fold_see_In (ks acc : list string) (x : string) :
  In x (fold_left see ks acc) <-> In x acc \/ In x ks.
Proof.
  revert acc. induction ks as [|k ks IH]; intros acc; simpl; [tauto|].
  rewrite IH, see_In. intuition congruence.
Qed.

Lemma fold_see_NoDup (ks acc : list string) :
  NoDup acc -> NoDup (fold_left see ks acc).
Proof.
  revert acc. induction ks as [|k ks IH]; intros acc H; simpl; [exact H|].
  apply IH. now apply see_NoDup.
Qed.

Lemma existsb_filter (p : string -> bool) (k : string) (acc : list string) :
  p k = true ->
  existsb (String.eqb k) (filter p acc) = existsb (String.eqb k) acc.
Proof.
  intros Hk. induction acc as [|x acc IH]; simpl; [reflexivity|].
  destruct (p x) eqn:Hx; simpl; [now rewrite IH|].
  destruct (String.eqb_spec k x) as [->|_]; [congruence | exact IH].
Qed.

Lemma see_filter (p : string -> bool) (acc : list string) (k : string) :
  filter p (see acc k) = if p k then see (filter p acc) k else filter p acc.
Proof.
  unfold see. destruct (p k) eqn:Hk.
  - rewrite existsb_filter by assumption.
    destruct (existsb (String.eqb k) acc); [reflexivity|].
    rewrite filter_app. simpl. now rewrite Hk.
  - destruct (existsb (String.eqb k) acc); [reflexivity|].
    rewrite filter_app. simpl. rewrite Hk. apply app_nil_r.
Qed.

(** Dropping some members before or after looking for first appearances
    comes to the same. *)
Lemma fold_see_filter (p : string -> bool) (ks acc : list string) :
  filter p (fold_left see ks acc) = fold_left see (filter p ks) (filter p acc).
Proof.
  revert acc. induction ks as [|k ks IH]; intros acc; simpl; [reflexivity|].
  rewrite IH, see_filter. now destruct (p k).
Qed.

Lemma keys_entry_set {V : Type} (k : string) (v : V) (m : list (string * V)) :
  map fst (entry_set k v m) = see (map fst m) k.
Proof.
  induction m as [|[k' v'] r IH]; simpl; [reflexivity|].
  unfold see. simpl. rewrite (String.eqb_sym k k').
  destruct (String.eqb_spec k' k) as [->|Hne]; simpl; [reflexivity|].
  rewrite IH. unfold see. now destruct (existsb (String.eqb k) (map fst r)).
Qed.

Lemma keys_new_Map_from {V : Type} (es m : list (string * V)) :
  map fst (fold_left (fun m kv => entry_set (fst kv) (snd kv) m) es m) =
    fold_left see (map fst es) (map fst m).
Proof.
  revert m. induction es as [|[k v] es IH]; intros m; simpl; [reflexivity|].
  now rewrite IH, keys_entry_set.
Qed.

Lemma keys_new_Map {V : Type} (es : list (string * V)) :
  map fst (new_Map es) = first_seen (map fst es).
Proof. apply keys_new_Map_from. Qed.

Lemma In_entry_set {V : Type} (k k0 : string) (v v0 : V) (m : list (string * V)) :
  In (k, v) (entry_set k0 v0 m) -> (k, v) = (k0, v0) \/ In (k, v) m.
Proof.
  induction m as [|[k' v'] r IH]; simpl.
  - intros [E|[]]. left. now symmetry.
  - destruct (String.eqb k' k0); simpl.
    + intros [E|H]; [left; now symmetry | right; now right].
    + intros [E|H]; [right; now left|].
      destruct (IH H) as [E|H']; [now left | right; now right].
Qed.

Lemma In_new_Map {V : Type} (k : string) (v : V) (es : list (string * V)) :
  In (k, v) (new_Map es) -> In (k, v) es.
Proof.
  unfold new_Map.
  assert (G : forall m, In (k, v) (fold_left (fun m kv => entry_set (fst kv) (snd kv) m) es m)
                        -> In (k, v) m \/ In (k, v) es).
  { induction es as [|[k0 v0] es IH]; intros m; simpl; [tauto|].
    intros H. destruct (IH _ H) as [H'|H']; [|tauto].
    simpl in H'. apply In_entry_set in H'. destruct H' as [E|H']; [|tauto].
    right. left. now symmetry. }
  intros H. destruct (G [] H) as [[]|H']. exact H'.
Qed.

Lemma map_set_entry_set (k : string) (v : AnalystMetrics) (m : MetricsMap) :
  map_set k v m = entry_set k v m.
Proof.
  induction m as [|[k' v'] r IH]; simpl; [reflexivity|].
  now rewrite IH.
Qed.

Lemma keys_forEach_body (m : MetricsMap) (t : TicketWithTimes) :
  keys (forEach_body m t) = fold_left see (assignees [t]) (keys m).
Proof.
  unfold forEach_body, assignees. simpl.
  destruct (assigned_to t) as [a|]; simpl; [|reflexivity].
  destruct (String.eqb a EmptyString); simpl; [reflexivity|].
  unfold keys. now rewrite map_set_entry_set, keys_entry_set.
Qed.

Lemma keys_rollup_from (l : list TicketWithTimes) (m : MetricsMap) :
  keys (fold_left forEach_body l m) = fold_left see (assignees l) (keys m).
Proof.
  revert m. induction l as [|t l IH]; intros m; [reflexivity|].
  assert (E : assignees (t :: l) = assignees [t] ++ assignees l)
    by (unfold assignees; simpl; now rewrite app_nil_r).
  rewrite E, fold_left_app, <- keys_forEach_body. apply IH.
Qed.

Lemma assignees_are_nonempty_ids (l : list TicketWithTimes) :
  assignees l = filter (fun a => negb (String.eqb a EmptyString)) (assigned_ids l).
Proof.
  unfold assignees, assigned_ids. induction l as [|t l IH]; simpl; [reflexivity|].
  rewrite filter_app, IH.
  destruct (assigned_to t) as [a|]; simpl; [|reflexivity].
  now destruct (String.eqb a EmptyString).
Qed.

Lemma option_keys (l : list TicketWithTimes) :
  map fst (map option_entry (filter (fun t => not_null (assigned_to t)) l)) = assigned_ids l.
Proof.
  unfold assigned_ids. induction l as [|t l IH]; simpl; [reflexivity|].
  destruct (assigned_to t) as [a|] eqn:E; simpl; [|exact IH].
  now rewrite E, IH.
Qed.

Lemma option_ids (l : list TicketWithTimes) :
  map option_id (analystOptions l) = first_seen (assigned_ids l).
Proof.
  unfold analystOptions. rewrite <- option_keys, <- keys_new_Map, map_map.
  apply map_ext_in. intros [k v] Hin. simpl.
  apply In_new_Map in Hin. apply in_map_iff in Hin.
  destruct Hin as (t & E & _). unfold option_entry in E.
  injection E as <- <-. reflexivity.
Qed.

Lemma assigned_ids_In (l : list TicketWithTimes) (a : string) :
  In a (assigned_ids l) <-> exists t, In t l /\ assigned_to t = Some a.
Proof.
  unfold assigned_ids. rewrite in_flat_map. split.
  - intros (t & Ht & Ha). exists t. split; [exact Ht|].
    destruct (assigned_to t); simpl in Ha; [|contradiction].
    destruct Ha as [->|[]]. reflexivity.
  - intros (t & Ht & E). exists t. split; [exact Ht|]. rewrite E. now left.
Qed.

End FirstSeen.

(** ** The analyst filter and the order of the per-analyst list *)

Section Options.

Lemma update_metrics_name (t : TicketWithTimes) (e : AnalystMetrics) :
  analyst_name (update_metrics t e) = analyst_name e.
Proof.
  unfold update_metrics, fold_resolution, fold_response.
  destruct (closed_at t), (first_response_at t); reflexivity.
Qed.

Lemma final_entry_name (ts : list TicketWithTimes) (e : AnalystMetrics) :
  analyst_name (final_entry e ts) = analyst_name e.
Proof.
  revert e. induction ts as [|t ts IH]; intros e; [reflexivity|].
  rewrite final_entry_cons, IH. apply update_metrics_name.
Qed.

Lemma perAnalyst_ids_first_seen (l : list TicketWithTimes) :
  map analyst_id (calculateAnalystMetrics l) = first_seen (assignees l).
Proof.
  rewrite ids_are_keys. unfold metricsMap_of, first_seen.
  now rewrite keys_rollup_from.
Qed.

Lemma assignees_not_null (l : list TicketWithTimes) :
  assignees (filter (fun t => not_null (assigned_to t)) l) = assignees l.
Proof.
  unfold assignees. induction l as [|t l IH]; simpl; [reflexivity|].
  destruct (assigned_to t) as [a|] eqn:E; simpl; [|exact IH].
  now rewrite E, IH.
Qed.

(** X5.  The analyst filter offers each non-null [assigned_to] of the
    loaded tickets once, in the order of first appearance.  The per-analyst
    list shows the same identities in the same order, the empty string
    left out, for every caller and every selection. *)
Theorem analyst_filter_matches_list (tickets : list TicketWithTimes)
    (selectedAnalyst : string) (caller : Caller) :
  let offered := map option_id (analystOptions tickets) in
  offered = first_seen (assigned_ids tickets) /\
  NoDup offered /\
  (forall a, In a offered <-> exists t, In t tickets /\ assigned_to t = Some a) /\
  map analyst_id (perAnalyst (aggregate tickets selectedAnalyst caller)) =
    filter (fun a => negb (String.eqb a EmptyString)) offered.
Proof.
  intros offered. unfold offered. rewrite option_ids.
  split; [reflexivity|]. split; [|split].
  - apply fold_see_NoDup. constructor.
  - intros a. unfold first_seen. rewrite fold_see_In, assigned_ids_In.
    simpl. tauto.
  - simpl. rewrite perAnalyst_ids_first_seen, assignees_not_null.
    rewrite assignees_are_nonempty_ids. unfold first_seen.
    now rewrite fold_see_filter.
Qed.

Lemma analyst_filter_matches_list_witness :
  let free := Sample.ticket (Sample.jan1 3 0) "low" None None None in
  let bobs := Sample.ticket (Sample.jan1 4 0) "low" None None (Some "bob"%string) in
  let l := [Sample.scenarioA; free; bobs; Sample.scenarioB] in
  map option_id (analystOptions l) = ["ana"; "bob"]%string /\
  In "bob"%string (map option_id (analystOptions l)) /\
  map analyst_id (perAnalyst (aggregate l "all" Sample.ana)) = ["ana"; "bob"]%string.
Proof.
  intros free bobs l.
  destruct (analyst_filter_matches_list l "all" Sample.ana) as (Hids & _ & Hin & Hlist).
  split; [rewrite Hids; vm_compute; reflexivity|]. split.
  - apply Hin. exists bobs. split; [simpl; tauto | reflexivity].
  - rewrite Hlist, Hids. vm_compute. reflexivity.
Defined.

(** X6.  The per-analyst list is ordered by the first ticket of each
    analyst in the list handed to [calculateAnalystMetrics], and each entry
    carries the name joined to that first ticket, or "Desconhecido" when
    the ticket has none; later tickets never change the name. *)
Theorem perAnalyst_order_and_names (ticketsData : list TicketWithTimes) :
  map analyst_id (calculateAnalystMetrics ticketsData) = first_seen (assignees ticketsData) /\
  (forall m, In m (calculateAnalystMetrics ticketsData) ->
     exists t0 rest,
       analystTickets (analyst_id m) ticketsData = t0 :: rest /\
       analyst_name m = Js.or_else (profiles t0) "Desconhecido").
Proof.
  split; [apply perAnalyst_ids_first_seen|].
  intros m Hin. apply perAnalyst_entry in Hin. destruct Hin as (e & Hin & ->).
  simpl in *.
  destruct (entry_characterised _ _ _ Hin) as (_ & t0 & rest & Hmine & He).
  exists t0, rest. split; [exact Hmine|].
  rewrite He, final_entry_name. reflexivity.
Qed.

Lemma perAnalyst_order_and_names_witness :
  let named := {| id := "t1"; title := ""; created_at := 0; updated_at := 0;
                  first_response_at := None; closed_at := None;
                  assigned_to := Some "bob"%string; status_id := None;
                  priority := None; ticket_statuses := None;
                  profiles := Some "Bob"%string |} in
  let l := [Sample.scenarioA; named; Sample.scenarioB] in
  let m := hd (fresh_metrics "" named) (calculateAnalystMetrics l) in
  map analyst_id (calculateAnalystMetrics l) = ["ana"; "bob"]%string /\
  exists t0 rest, analystTickets (analyst_id m) l = t0 :: rest /\
                  analyst_name m = Js.or_else (profiles t0) "Desconhecido".
Proof.
  intros named l m.
  destruct (perAnalyst_order_and_names l) as (Hids & Hnames).
  split; [rewrite Hids; vm_compute; reflexivity|].
  apply Hnames. vm_compute. left. reflexivity.
Defined.

End Options.

(** ** Lengths *)

Section Lengths.

Lemma length_cons {A : Type} (x : A) (l : list A) : Js.length (x :: l) = 1 + Js.length l.
Proof. unfold Js.length. change (List.length (x :: l)) with (S (List.length l)). lia. Qed.

Lemma length_nonneg {A : Type} (l : list A) : 0 <= Js.length l.
Proof. unfold Js.length. lia. Qed.

End Lengths.

(** ** What an admin sees after selecting an analyst *)

Section Selection.

Lemma selection_tickets (caller : Caller) (sel : string) (tickets : list TicketWithTimes) :
  role caller = admin -> sel <> "all"%string -> sel <> EmptyString ->
  assignedTickets caller sel tickets = analystTickets sel tickets.
Proof.
  intros Hr Hall Hne. unfold assignedTickets, analystTickets.
  apply filter_ext. intros t. unfold is_mine. rewrite Hr.
  apply String.eqb_neq in Hall. rewrite Hall. simpl.
  destruct (Js.strict_eq (assigned_to t) sel) eqn:E.
  - now rewrite (strict_eq_truthy sel Hne _ E).
  - now destruct (Js.truthy (assigned_to t)).
Qed.

(** X9.  When an admin selects an analyst of the per-analyst list (whose
    identity is not the word "all"), the overall cards and that analyst's
    entry agree: same number of tickets, same number of resolved tickets
    and the same two compliance percentages, each computed from the same
    two counts. *)
Theorem admin_selection_matches_entry (tickets : list TicketWithTimes)
    (caller : Caller) (m : AnalystMetrics) :
  role caller = admin ->
  analyst_id m <> "all"%string ->
  In m (perAnalyst (aggregate tickets (analyst_id m) caller)) ->
  let shown := aggregate tickets (analyst_id m) caller in
  let mine := analystTickets (analyst_id m) tickets in
  assignedTickets caller (analyst_id m) tickets = mine /\
  totalTickets (overall shown) = total_tickets m /\
  resolvedTickets (overall shown) = resolved_tickets m /\
  responseCompliance (sla shown) = sla_response_compliance m /\
  resolutionCompliance (sla shown) = sla_resolution_compliance m /\
  sla_response_compliance m =
    percentage (Js.length (ticketsWithinResponseSla mine))
      (Js.length (ticketsWithResponse mine)) /\
  sla_resolution_compliance m =
    percentage (Js.length (ticketsWithinResolutionSla mine))
      (Js.length (ticketsResolved mine)).
Proof.
  intros Hr Hall Hin shown mine. simpl in Hin.
  destruct (perAnalyst_fields _ _ Hin) as (Hid & _ & Htot & Hres & _).
  destruct (perAnalyst_compliance _ _ Hin) as (Hc1 & Hc2).
  rewrite analystTickets_not_null in Htot, Hres, Hc1, Hc2.
  fold mine in Htot, Hres, Hc1, Hc2.
  pose proof (selection_tickets caller (analyst_id m) tickets Hr Hall Hid) as Hsel.
  fold mine in Hsel.
  unfold shown. simpl. rewrite Hsel.
  split; [reflexivity|].
  split; [now rewrite Htot|]. split; [now rewrite Hres|].
  split; [now rewrite Hc1|]. split; [now rewrite Hc2|].
  split; [exact Hc1 | exact Hc2].
Qed.

Lemma admin_selection_matches_entry_witness :
  let l := [Sample.scenarioA; Sample.scenarioB] in
  let m := hd (fresh_metrics "" Sample.scenarioA) (calculateAnalystMetrics l) in
  totalTickets (overall (aggregate l (analyst_id m) Sample.root)) = total_tickets m /\
  total_tickets m = 2.
Proof.
  intros l m.
  destruct (admin_selection_matches_entry l Sample.root m) as (_ & H & _).
  - reflexivity.
  - vm_compute. discriminate.
  - vm_compute. left. reflexivity.
  - split; [exact H | vm_compute; reflexivity].
Defined.

End Selection.

(** ** The assumption time *)

Section Assumption.

Lemma fold_sum_assumption (l : list TicketWithTimes) (acc : Z) :
  fold_left (fun acc t => acc + Dates.differenceInMinutes (updated_at t) (created_at t)) l acc
  = acc + elapsed_total (fun t => Some (updated_at t)) l.
Proof.
  revert acc. induction l as [|t l IH]; intros acc; simpl; [lia|].
  rewrite IH. lia.
Qed.

(** X10.  For every analyst of the list that [fetchTicketsWithMetrics]
    stored, the assumption time shown is the sum of the minutes between
    creation and last update of all tickets of that analyst, divided by the
    ticket count of the entry: the replacement of an empty count by 1 never
    applies, and unlike the response average every ticket is a sample. *)
Theorem assumption_average_over_all_tickets (dateRange : DateRange)
    (allTicketsData : list TicketWithTimes) (m : AnalystMetrics) :
  let st := fetchTicketsWithMetrics dateRange allTicketsData in
  In m (analystMetrics st) ->
  let mine := analystTickets (analyst_id m) (tickets st) in
  1 <= Js.length mine /\
  Js.length mine = total_tickets m /\
  avgAssumptionTime (tickets st) m
    = (inject_Z (elapsed_total (fun t => Some (updated_at t)) mine)
         / inject_Z (total_tickets m))%Q.
Proof.
  intros st Hin mine. simpl in Hin.
  destruct (perAnalyst_fields _ _ Hin) as (_ & Hne & Htot & _).
  rewrite analystTickets_not_null in Hne, Htot.
  change (analystTickets (analyst_id m) (filteredTickets dateRange allTicketsData))
    with mine in Hne, Htot.
  assert (Hpos : 1 <= Js.length mine).
  { destruct mine; [congruence|]. rewrite length_cons.
    pose proof (length_nonneg mine). lia. }
  split; [exact Hpos|]. split; [now rewrite Htot|].
  unfold avgAssumptionTime. fold (analystTickets (analyst_id m) (tickets st)). fold mine.
  unfold sum_assumption. rewrite fold_sum_assumption, Z.add_0_l.
  unfold or_one. destruct (Z.eqb_spec (Js.length mine) 0); [lia|].
  now rewrite Htot.
Qed.

Lemma assumption_average_over_all_tickets_witness :
  let r := {| range_start := Dates.date_only 2024 1 1;
              range_end := Dates.date_only 2024 1 1 |} in
  let st := fetchTicketsWithMetrics r [Sample.scenarioA; Sample.scenarioB] in
  let m := hd (fresh_metrics "" Sample.scenarioA) (analystMetrics st) in
  Js.length (analystTickets (analyst_id m) (tickets st)) = total_tickets m /\
  total_tickets m = 2.
Proof.
  intros r st m.
  destruct (assumption_average_over_all_tickets r [Sample.scenarioA; Sample.scenarioB] m)
    as (_ & H & _).
  - vm_compute. left. reflexivity.
  - split; [exact H | vm_compute; reflexivity].
Defined.

End Assumption.

(** ** The recent tickets *)

Section Recent.

(** X11.  At most ten rows are shown, one for each of the first ten loaded
    tickets in their order.  In each row and in each of the two time
    columns (first response and resolution) the time is missing exactly
    when the ticket has not reached the milestone, and exactly then the
    verdict is missing too: no icon is drawn and the text is the muted
    dash.  A time that is there is the elapsed minutes, written by
    [formatMinutes]; it has the check icon and the green class when the
    comparison with the target of the ticket's priority holds, the cross
    and the red class when it fails; against a target of [n] minutes the
    comparison is [time <= n]. *)
Theorem recent_rows_consistent (tickets : list TicketWithTimes) :
  Js.length (recentTickets tickets) <= 10 /\
  map row_id (recentTickets tickets) = map id (firstn 10 tickets) /\
  (forall t kind, In t tickets ->
     let row := recent_row t in
     let time := row_time kind row in
     let v := row_sla kind row in
     let cell := time_cell time v in
     let target := getSlaTarget (priority t) kind in
     (time = None <-> milestone kind t = None) /\
     (time = None <-> v = None) /\
     (time = None ->
        cell = {| cell_icon := None;
                  cell_class := "text-muted-foreground";
                  cell_text := "-" |}) /\
     (forall at_, milestone kind t = Some at_ ->
        let rt := Dates.differenceInMinutes at_ (created_at t) in
        time = Some rt /\
        v = Some (within_target rt target) /\
        cell_text cell = formatMinutes (inject_Z rt) /\
        (within_target rt target = true ->
           cell_icon cell = Some CheckCircle /\
           cell_class cell = "text-green-600 font-medium"%string) /\
        (within_target rt target = false ->
           cell_icon cell = Some XCircle /\
           cell_class cell = "text-red-600 font-medium"%string) /\
        (forall n, target = Minutes n ->
           (within_target rt target = true <-> rt <= n)))).
Proof.
  split; [|split].
  - unfold recentTickets, Js.length. rewrite length_map.
    rewrite length_firstn. lia.
  - unfold recentTickets. rewrite map_map. reflexivity.
  - intros t kind _ row time v cell target.
    assert (Htime : time = match milestone kind t with
                           | Some at_ => Some (Dates.differenceInMinutes at_ (created_at t))
                           | None => None
                           end)
      by (destruct kind; reflexivity).
    assert (Hv : v = match milestone kind t with
                     | Some at_ =>
                         Some (within_target
                                 (Dates.differenceInMinutes at_ (created_at t)) target)
                     | None => None
                     end).
    { unfold v, target, row. destruct kind; simpl; unfold isWithinSla;
        [destruct (first_response_at t) | destruct (closed_at t)]; reflexivity. }
    unfold cell, time_cell. rewrite Hv, Htime.
    destruct (milestone kind t) as [at_|].
    + split; [split; discriminate|]. split; [split; discriminate|].
      split; [discriminate|].
      intros a E. injection E as <-. cbv zeta.
      split; [reflexivity|]. split; [reflexivity|]. split; [reflexivity|].
      split; [|split].
      * intros ->. split; reflexivity.
      * intros ->. split; reflexivity.
      * intros n ->. simpl. apply Z.leb_le.
    + split; [tauto|]. split; [tauto|]. split; [reflexivity|]. discriminate.
Qed.

Lemma recent_rows_consistent_witness :
  responseSla (recent_row Sample.scenarioA) = Some true /\
  verdict_icon (responseSla (recent_row Sample.scenarioA)) = Some CheckCircle /\
  cell_class (time_cell (row_time resolution (recent_row Sample.scenarioA))
                (row_sla resolution (recent_row Sample.scenarioA)))
    = "text-muted-foreground"%string.
Proof.
  destruct (recent_rows_consistent [Sample.scenarioA]) as (_ & _ & H).
  destruct (H Sample.scenarioA response (or_introl eq_refl)) as (_ & _ & _ & Hrow).
  destruct (H Sample.scenarioA resolution (or_introl eq_refl)) as (_ & _ & Hnone & _).
  destruct (Hrow (Sample.jan1 0 45) eq_refl) as (_ & Hv & _ & Hgreen & _).
  split; [exact Hv|]. split.
  - apply Hgreen. reflexivity.
  - rewrite Hnone; reflexivity.
Defined.

(** X12.  A priority other than urgent, high and medium gets the badge
    "Baixa", the badge of low.  If it is not low and not the name of an
    inherited member either, as the priority critical of the ticket table,
    the same ticket is judged by the medium targets, which are smaller
    than the low ones that the badge suggests.  For the name of an
    inherited member the target is that member, not a number. *)
Theorem badge_and_target_disagree (p : string) (type : MetricKind) :
  p <> EmptyString -> ~ In p sla_keys ->
  priorityBadge (Some p) = Some "Baixa"%string /\
  priorityBadge (Some "low"%string) = Some "Baixa"%string /\
  (~ In p Object_prototype_members ->
     getSlaTarget (Some p) type = Minutes (medium (SLA_TARGETS type)) /\
     getSlaTarget (Some "low"%string) type = Minutes (low (SLA_TARGETS type)) /\
     medium (SLA_TARGETS type) < low (SLA_TARGETS type)) /\
  (In p Object_prototype_members -> getSlaTarget (Some p) type = Inherited p).
Proof.
  intros Hne Hkeys.
  destruct (not_key_eqb p Hkeys) as (H1 & H2 & H3 & H4).
  assert (H0 : String.eqb p EmptyString = false) by (now apply String.eqb_neq).
  split; [|split; [reflexivity|split]].
  - unfold priorityBadge. simpl. now rewrite H0, H1, H2, H3.
  - intros Hm. split; [|split].
    + unfold getSlaTarget. simpl. rewrite H0.
      now rewrite (row_get_not_found _ p Hkeys Hm).
    + destruct type; reflexivity.
    + destruct type; reflexivity.
  - intros Hm. now apply inherited_member_is_returned with (time := 0).
Qed.

Lemma badge_and_target_disagree_witness :
  priorityBadge (Some "critical"%string) = Some "Baixa"%string /\
  getSlaTarget (Some "critical"%string) response = Minutes 240.
Proof.
  destruct (badge_and_target_disagree "critical" response) as (Hb & _ & Ht & _).
  - discriminate.
  - unfold sla_keys. simpl. intros [H|[H|[H|[H|[]]]]]; discriminate H.
  - split; [exact Hb|]. apply Ht.
    unfold Object_prototype_members. simpl.
    intros H. repeat (destruct H as [H|H]; [discriminate H|]). exact H.
Defined.

End Recent.

(** ** The role of the caller *)

Section Roles.

Lemma role_eqb_eq (a b : AppRole) : role_eqb a b = true <-> a = b.
Proof. destruct a, b; simpl; split; congruence. Qed.

Lemma includes_In (data : list AppRole) (r : AppRole) :
  includes data r = true <-> In r data.
Proof.
  unfold includes. rewrite existsb_exists. split.
  - intros (x & Hx & E). apply role_eqb_eq in E. now subst x.
  - intros H. exists r. split; [exact H | now apply role_eqb_eq].
Qed.

Lemma includes_Permutation (data data' : list AppRole) (r : AppRole) :
  Permutation data data' -> includes data r = includes data' r.
Proof.
  intros P. destruct (includes data r) eqn:E; symmetry.
  - apply includes_In. apply includes_In in E. now apply (Permutation_in _ P).
  - destruct (includes data' r) eqn:E'; [|reflexivity].
    apply includes_In in E'. apply (Permutation_in _ (Permutation_sym P)) in E'.
    apply includes_In in E'. congruence.
Qed.

(** X13.  [fetchRole] sets the highest privilege among the rows of the
    caller, whatever their order: no row ranks above the result, and the
    result is one of the rows when there is any.  A failed query and an
    empty result both give the role user.  The caller is staff exactly when
    some row is not the user role. *)
Theorem fetchRole_highest_privilege :
  fetchRole None = user /\
  fetchRole (Some []) = user /\
  (forall data r, In r data -> rank r <= rank (fetchRole (Some data))) /\
  (forall data, data <> [] -> In (fetchRole (Some data)) data) /\
  (forall data data', Permutation data data' ->
     fetchRole (Some data) = fetchRole (Some data')) /\
  (forall data, isStaff (fetchRole (Some data)) = true <->
                exists r, In r data /\ r <> user).
Proof.
  split; [reflexivity|]. split; [reflexivity|].
  split; [|split; [|split]].
  - intros data r Hin. unfold fetchRole.
    assert (Hlen : (0 <? Js.length data) = true).
    { destruct data; [contradiction|]. unfold Js.length. simpl. reflexivity. }
    rewrite Hlen.
    destruct (includes data admin) eqn:Ea; [destruct r; simpl; lia|].
    destruct (includes data analyst) eqn:Eb.
    + destruct r; simpl; try lia.
      apply includes_In in Hin. congruence.
    + destruct r; simpl; try lia; apply includes_In in Hin; congruence.
  - intros data Hne. unfold fetchRole.
    assert (Hlen : (0 <? Js.length data) = true).
    { destruct data; [contradiction|]. unfold Js.length. simpl. reflexivity. }
    rewrite Hlen.
    destruct (includes data admin) eqn:Ea; [now apply includes_In|].
    destruct (includes data analyst) eqn:Eb; [now apply includes_In|].
    destruct data as [|r data]; [contradiction|].
    destruct r.
    + assert (In admin (admin :: data)) by now left.
      apply includes_In in H. congruence.
    + assert (In analyst (analyst :: data)) by now left.
      apply includes_In in H. congruence.
    + now left.
  - intros data data' P. unfold fetchRole, Js.length.
    rewrite (Permutation_length P).
    now rewrite (includes_Permutation _ _ admin P), (includes_Permutation _ _ analyst P).
  - intros data. unfold fetchRole. split.
    + destruct (0 <? Js.length data); [|discriminate].
      destruct (includes data admin) eqn:Ea.
      * intros _. exists admin. split; [now apply includes_In | discriminate].
      * destruct (includes data analyst) eqn:Eb; [|discriminate].
        intros _. exists analyst. split; [now apply includes_In | discriminate].
    + intros (r & Hin & Hr).
      assert (Hlen : (0 <? Js.length data) = true).
      { destruct data; [contradiction|]. unfold Js.length. simpl. reflexivity. }
      rewrite Hlen.
      destruct (includes data admin) eqn:Ea; [reflexivity|].
      destruct (includes data analyst) eqn:Eb; [reflexivity|].
      destruct r; [| |contradiction]; apply includes_In in Hin; congruence.
Qed.

Lemma fetchRole_highest_privilege_witness :
  fetchRole (Some [user; admin; analyst]) = fetchRole (Some [analyst; user; admin]) /\
  rank analyst <= rank (fetchRole (Some [user; admin; analyst])) /\
  isStaff (fetchRole (Some [user; analyst])) = true.
Proof.
  destruct fetchRole_highest_privilege as (_ & _ & Hmax & _ & Hperm & Hstaff).
  split; [|split].
  - apply Hperm.
    apply perm_trans with (l' := [admin; user; analyst]); [apply perm_swap|].
    apply perm_trans with (l' := [admin; analyst; user]);
      [apply perm_skip, perm_swap|].
    apply perm_trans with (l' := [analyst; admin; user]); [apply perm_swap|].
    apply perm_skip, perm_swap.
  - apply Hmax. simpl. tauto.
  - apply Hstaff. exists analyst. split; [simpl; tauto | discriminate].
Defined.

End Roles.

(** ** Order of the loaded tickets *)

Section OrderIndependence.

Lemma Permutation_filter' {A : Type} (f : A -> bool) (l l' : list A) :
  Permutation l l' -> Permutation (filter f l) (filter f l').
Proof.
  induction 1 as [|x l l' P IH|x y l|l l' l'' P1 IH1 P2 IH2]; simpl.
  - constructor.
  - destruct (f x); [now constructor | exact IH].
  - destruct (f x), (f y); try apply Permutation_refl; apply perm_swap.
  - now apply perm_trans with (l' := filter f l').
Qed.

Lemma elapsed_total_Permutation (milestone : TicketWithTimes -> option Z)
    (l l' : list TicketWithTimes) :
  Permutation l l' -> elapsed_total milestone l = elapsed_total milestone l'.
Proof.
  induction 1 as [|x l l' P IH|x y l|l l' l'' P1 IH1 P2 IH2]; simpl.
  - reflexivity.
  - now rewrite IH.
  - destruct (milestone x), (milestone y); lia.
  - congruence.
Qed.

Lemma length_Permutation {A : Type} (l l' : list A) :
  Permutation l l' -> Js.length l = Js.length l'.
Proof. intros P. unfold Js.length. now rewrite (Permutation_length P). Qed.

(** X14.  The overall statistics and the two overall compliance
    percentages do not depend on the order in which the tickets were
    loaded. *)
Theorem overall_ignores_order (tickets tickets' : list TicketWithTimes)
    (selectedAnalyst : string) (caller : Caller) :
  Permutation tickets tickets' ->
  overall (aggregate tickets selectedAnalyst caller)
    = overall (aggregate tickets' selectedAnalyst caller) /\
  sla (aggregate tickets selectedAnalyst caller)
    = sla (aggregate tickets' selectedAnalyst caller).
Proof.
  intros P. simpl.
  assert (Pa : Permutation (assignedTickets caller selectedAnalyst tickets)
                 (assignedTickets caller selectedAnalyst tickets'))
    by (now apply Permutation_filter').
  set (a := assignedTickets caller selectedAnalyst tickets) in *.
  set (a' := assignedTickets caller selectedAnalyst tickets') in *.
  split.
  - unfold overallStats.
    rewrite !sum_response_total, !sum_resolution_total.
    rewrite (length_Permutation _ _ Pa).
    rewrite (length_Permutation _ _ (Permutation_filter' has_response _ _ Pa)).
    rewrite (length_Permutation _ _ (Permutation_filter' has_closed _ _ Pa)).
    rewrite (elapsed_total_Permutation first_response_at _ _ Pa).
    rewrite (elapsed_total_Permutation closed_at _ _ Pa).
    reflexivity.
  - unfold slaStats, compliance_response, compliance_resolution,
      ticketsWithinResponseSla, ticketsWithinResolutionSla,
      ticketsWithResponse, ticketsResolved.
    rewrite (length_Permutation _ _ (Permutation_filter' has_response _ _ Pa)).
    rewrite (length_Permutation _ _ (Permutation_filter' has_closed _ _ Pa)).
    rewrite (length_Permutation _ _
               (Permutation_filter' (fun t => verdict_truthy (isWithinSla t response)) _ _
                  (Permutation_filter' has_response _ _ Pa))).
    rewrite (length_Permutation _ _
               (Permutation_filter' (fun t => verdict_truthy (isWithinSla t resolution)) _ _
                  (Permutation_filter' has_closed _ _ Pa))).
    reflexivity.
Qed.

Lemma overall_ignores_order_witness :
  overall (aggregate [Sample.scenarioA; Sample.scenarioB] "all" Sample.root)
    = overall (aggregate [Sample.scenarioB; Sample.scenarioA] "all" Sample.root).
Proof.
  apply (overall_ignores_order [Sample.scenarioA; Sample.scenarioB]
           [Sample.scenarioB; Sample.scenarioA] "all" Sample.root).
  apply perm_swap.
Defined.

End OrderIndependence.

(** ** More on the creation window *)

Section WindowEdges.

Lemma day_start_mono (s s' : Z) : s' <= s -> day_start s' <= day_start s.
Proof.
  intros H. unfold day_start, Dates.msPerDay.
  pose proof (Z.div_mod s 86400000). pose proof (Z.div_mod s' 86400000).
  pose proof (Z.div_le_mono s' s 86400000). lia.
Qed.

(** X15.  Widening the period never loses a ticket: with an earlier start
    and a later end every ticket loaded before is loaded again.  A period
    whose end day lies before its start day loads nothing, and two periods
    whose ends fall on the same UTC days load the same tickets. *)
Theorem creation_window_edges (r r' : DateRange) (allTicketsData : list TicketWithTimes) :
  (range_start r' <= range_start r -> range_end r <= range_end r' ->
     forall t, In t (filteredTickets r allTicketsData) ->
               In t (filteredTickets r' allTicketsData)) /\
  (Dates.Day (range_end r) < Dates.Day (range_start r) ->
     filteredTickets r allTicketsData = []) /\
  (Dates.Day (range_start r) = Dates.Day (range_start r') ->
   Dates.Day (range_end r) = Dates.Day (range_end r') ->
     filteredTickets r allTicketsData = filteredTickets r' allTicketsData).
Proof.
  split; [|split].
  - intros Hs He t. unfold filteredTickets, isInRange.
    rewrite !filter_In, !andb_true_iff, !Z.leb_le.
    rewrite !startDate_day_start, !endDate_day_end. unfold day_end.
    pose proof (day_start_mono _ _ Hs). pose proof (day_start_mono _ _ He).
    intros (Hin & H1 & H2). split; [exact Hin | lia].
  - intros Hinv. unfold filteredTickets. apply filter_none.
    intros t _. unfold isInRange.
    destruct (Z.leb_spec (startDate r) (created_at t)) as [H1|H1]; [|reflexivity].
    destruct (Z.leb_spec (created_at t) (endDate r)) as [H2|H2]; [|reflexivity].
    exfalso. unfold startDate, endDate, Dates.setUTCHours, Dates.MakeDate,
      Dates.MakeTime, Dates.msPerDay in H1, H2. lia.
  - intros Hs He. unfold filteredTickets. apply filter_ext. intros t.
    unfold isInRange, startDate, endDate, Dates.setUTCHours. now rewrite Hs, He.
Qed.

Lemma creation_window_edges_witness :
  let early := {| range_start := Dates.date_only 2024 1 1;
                  range_end := Dates.date_only 2023 12 31 |} in
  let day := {| range_start := Dates.date_only 2024 1 1;
                range_end := Dates.date_only 2024 1 1 |} in
  let week := {| range_start := Dates.date_only 2023 12 28;
                 range_end := Dates.date_only 2024 1 3 |} in
  filteredTickets early [Sample.scenarioA] = [] /\
  In Sample.scenarioA (filteredTickets week [Sample.scenarioA]).
Proof.
  intros early day week.
  destruct (creation_window_edges early day [Sample.scenarioA]) as (_ & Hinv & _).
  destruct (creation_window_edges day week [Sample.scenarioA]) as (Hwide & _).
  split.
  - apply Hinv. vm_compute. reflexivity.
  - apply Hwide; [vm_compute; discriminate | vm_compute; discriminate |].
    vm_compute. left. reflexivity.
Defined.

End WindowEdges.

(** ** A caller who is not an admin *)

Section OwnTickets.

(** X16.  For a caller who is not an admin the overall statistics range
    over the tickets assigned to the caller's own profile, whatever analyst
    is selected; while the profile is not loaded they range over no ticket
    and every overall figure is 0. *)
Theorem non_admin_overall_is_own (tickets : list TicketWithTimes) (caller : Caller) :
  role caller <> admin ->
  (forall sel t, In t (assignedTickets caller sel tickets) <->
                 In t tickets /\ Js.truthy (assigned_to t) = true /\
                 exists me, profile_id caller = Some me /\ assigned_to t = Some me) /\
  (forall sel sel', overall (aggregate tickets sel caller)
                    = overall (aggregate tickets sel' caller)) /\
  (profile_id caller = None ->
     forall sel, overall (aggregate tickets sel caller)
                 = {| totalTickets := 0; respondedTickets := 0; resolvedTickets := 0;
                      avgResponseTime := Num.Finite 0;
                      avgResolutionTime := Num.Finite 0 |}).
Proof.
  intros Hr. split; [|split].
  - intros sel t. rewrite (non_admin_overall_own_tickets tickets sel caller Hr).
    rewrite filter_In, andb_true_iff. split.
    + intros (Hin & Ht & E). split; [exact Hin|]. split; [exact Ht|].
      destruct (assigned_to t) as [a|], (profile_id caller) as [me|];
        simpl in E; try discriminate.
      apply String.eqb_eq in E. subst a. now exists me.
    + intros (Hin & Ht & me & Hme & Ha). split; [exact Hin|]. split; [exact Ht|].
      rewrite Hme, Ha. simpl. apply String.eqb_refl.
  - intros sel sel'. simpl.
    now rewrite (non_admin_overall_own_tickets tickets sel caller Hr),
      (non_admin_overall_own_tickets tickets sel' caller Hr).
  - intros Hnone sel. simpl.
    rewrite (non_admin_overall_own_tickets tickets sel caller Hr).
    rewrite filter_none; [reflexivity|].
    intros t _. rewrite Hnone.
    destruct (assigned_to t); simpl; [apply andb_false_r | reflexivity].
Qed.

Lemma non_admin_overall_is_own_witness :
  let bobs := Sample.ticket (Sample.jan1 4 0) "low" None None (Some "bob"%string) in
  overall (aggregate [bobs; Sample.scenarioA] "bob" Sample.ana)
    = overall (aggregate [bobs; Sample.scenarioA] "all" Sample.ana) /\
  totalTickets (overall (aggregate [bobs; Sample.scenarioA] "bob"
                           {| role := analyst; profile_id := None |})) = 0.
Proof.
  intros bobs.
  destruct (non_admin_overall_is_own [bobs; Sample.scenarioA] Sample.ana) as (_ & H & _);
    [discriminate|].
  destruct (non_admin_overall_is_own [bobs; Sample.scenarioA]
              {| role := analyst; profile_id := None |}) as (_ & _ & H0);
    [discriminate|].
  split; [apply H|]. now rewrite (H0 eq_refl "bob"%string).
Defined.

End OwnTickets.

(** ** Range of the response average *)

Section ResponseRange.

Lemma running_mean_response_range (ts : list TicketWithTimes) (n : Z) (mean lo hi : Q) :
  0 <= n -> (lo <= mean <= hi)%Q ->
  (forall t fr, In t ts -> first_response_at t = Some fr ->
     (lo <= inject_Z (Dates.differenceInMinutes fr (created_at t)) <= hi)%Q) ->
  (lo <= running_mean_response n mean ts <= hi)%Q.
Proof.
  revert n mean. induction ts as [|t ts IH]; intros n mean Hn Hm Hall; [exact Hm|].
  simpl. destruct (first_response_at t) as [fr|] eqn:E.
  - apply IH; [lia | | intros u fu Hu; apply Hall; now right].
    specialize (Hall t fr (or_introl eq_refl) E).
    set (s := inject_Z (Dates.differenceInMinutes fr (created_at t))) in *.
    replace (n + 1 - 1) with n by lia.
    rewrite inject_Z_plus. change (inject_Z 1) with 1%Q.
    assert (HN : (0 <= inject_Z n)%Q)
      by (change 0%Q with (inject_Z 0); now rewrite <- Zle_Qle).
    set (N := inject_Z n) in *.
    split.
    + apply Qle_shift_div_l; [lra | nra].
    + apply Qle_shift_div_r; [lra | nra].
  - apply IH; [lia | exact Hm | intros u fu Hu; apply Hall; now right].
Qed.

(** X17.  The average response time of an entry never leaves the range
    spanned by 0 and the response times of the analyst's answered tickets:
    if each of them lies between 0 and [M] minutes, so does the average,
    however the answered and unanswered tickets are interleaved. *)
Theorem response_average_in_range (ticketsData : list TicketWithTimes)
    (m : AnalystMetrics) (M : Z) :
  In m (calculateAnalystMetrics ticketsData) ->
  0 <= M ->
  (forall t fr, In t (analystTickets (analyst_id m) ticketsData) ->
     first_response_at t = Some fr ->
     0 <= Dates.differenceInMinutes fr (created_at t) <= M) ->
  (0 <= avg_response_time m <= inject_Z M)%Q.
Proof.
  intros Hin HM Hall.
  destruct (perAnalyst_fields _ _ Hin) as (_ & _ & _ & _ & -> & _).
  apply running_mean_response_range; [lia | | ].
  - split; [lra|]. change 0%Q with (inject_Z 0). now rewrite <- Zle_Qle.
  - intros t fr Ht E. destruct (Hall t fr Ht E) as [H0 H1].
    split; [change 0%Q with (inject_Z 0)|]; now rewrite <- Zle_Qle.
Qed.

Lemma response_average_in_range_witness :
  let m := hd (fresh_metrics "" Sample.scenarioA)
             (calculateAnalystMetrics [Sample.scenarioA; Sample.scenarioB]) in
  (0 <= avg_response_time m <= inject_Z 60)%Q.
Proof.
  intros m.
  apply (response_average_in_range [Sample.scenarioA; Sample.scenarioB] m 60).
  - vm_compute. left. reflexivity.
  - lia.
  - intros t fr Ht E. vm_compute in Ht.
    destruct Ht as [<-|[<-|[]]]; injection E as <-; vm_compute; split; discriminate.
Defined.

End ResponseRange.

(** ** Range of the averages without the initial zero *)

Section AverageRanges.

Lemma first_sample (mean s : Q) : (mean * inject_Z 0 + s) / inject_Z 1 == s.
Proof. change (inject_Z 0) with 0%Q. change (inject_Z 1) with 1%Q. field. Qed.

Lemma running_mean_resolution_range (ts : list TicketWithTimes) (k : Z) (mean lo hi : Q) :
  0 <= k -> (0 < k -> (lo <= mean <= hi)%Q) ->
  (forall t cl, In t ts -> closed_at t = Some cl ->
     (lo <= inject_Z (Dates.differenceInMinutes cl (created_at t)) <= hi)%Q) ->
  0 < k + Js.length (filter has_closed ts) ->
  (lo <= running_mean_resolution k mean ts <= hi)%Q.
Proof.
  revert k mean. induction ts as [|t ts IH]; intros k mean Hk Hm Hall Hcnt.
  - apply Hm. unfold Js.length in Hcnt. simpl in Hcnt. lia.
  - simpl in *. unfold has_closed at 1 in Hcnt.
    destruct (closed_at t) as [cl|] eqn:E.
    + specialize (Hall t cl (or_introl eq_refl) E) as Hs.
      set (s := inject_Z (Dates.differenceInMinutes cl (created_at t))) in *.
      apply IH; [lia | | intros u cu Hu; apply Hall; now right |].
      * intros _. replace (k + 1 - 1) with k by lia.
        destruct (Z.eq_dec k 0) as [->|Hpos].
        -- change (0 + 1) with 1. rewrite first_sample. exact Hs.
        -- assert (Hmean : (lo <= mean <= hi)%Q) by (apply Hm; lia).
           rewrite inject_Z_plus. change (inject_Z 1) with 1%Q.
           assert (HN : (0 <= inject_Z k)%Q)
             by (change 0%Q with (inject_Z 0); now rewrite <- Zle_Qle).
           set (N := inject_Z k) in *.
           split.
           ++ apply Qle_shift_div_l; [lra | nra].
           ++ apply Qle_shift_div_r; [lra | nra].
      * rewrite length_cons in Hcnt. lia.
    + apply IH; [exact Hk | exact Hm | intros u cu Hu; apply Hall; now right | exact Hcnt].
Qed.

(** X7.  The average resolution time of an analyst with a closed ticket
    lies between the smallest and the largest resolution time of that
    analyst's closed tickets: if each of them lies between [lo] and [hi]
    minutes, so does the average, whatever open tickets lie between
    them. *)
Theorem resolution_average_in_range (ticketsData : list TicketWithTimes)
    (m : AnalystMetrics) (lo hi : Z) :
  In m (calculateAnalystMetrics ticketsData) ->
  0 < resolved_tickets m ->
  (forall t cl, In t (analystTickets (analyst_id m) ticketsData) ->
     closed_at t = Some cl ->
     lo <= Dates.differenceInMinutes cl (created_at t) <= hi) ->
  (inject_Z lo <= avg_resolution_time m <= inject_Z hi)%Q.
Proof.
  intros Hin Hpos Hall.
  destruct (perAnalyst_fields _ _ Hin) as (_ & _ & _ & Hres & _ & ->).
  apply running_mean_resolution_range; [lia | lia | | lia].
  intros t cl Ht E. destruct (Hall t cl Ht E) as [H0 H1].
  split; now rewrite <- Zle_Qle.
Qed.

Lemma resolution_average_in_range_witness :
  let c := Sample.jan1 0 0 in
  let r10 := Sample.ticket c "low" None (Some (Sample.jan1 0 10)) (Some "ana"%string) in
  let open := Sample.ticket c "low" None None (Some "ana"%string) in
  let r30 := Sample.ticket c "low" None (Some (Sample.jan1 0 30)) (Some "ana"%string) in
  let l := [open; r10; open; r30] in
  let m := hd (fresh_metrics "" open) (calculateAnalystMetrics l) in
  (inject_Z 10 <= avg_resolution_time m <= inject_Z 30)%Q.
Proof.
  intros c r10 open r30 l m.
  apply (resolution_average_in_range l m 10 30).
  - vm_compute. left. reflexivity.
  - vm_compute. reflexivity.
  - intros t cl Ht E. vm_compute in Ht.
    destruct Ht as [<-|[<-|[<-|[<-|[]]]]]; try discriminate E;
      injection E as <-; vm_compute; split; discriminate.
Defined.

(** X8.  When the first ticket of an analyst, in list order, has a first
    response, the average response time of the entry lies between the
    smallest and the largest response time of that analyst's answered
    tickets: the first sample replaces the initial 0, and unanswered
    tickets after it only change the weights. *)
Theorem response_average_in_range_when_first_answered
    (ticketsData : list TicketWithTimes) (m : AnalystMetrics) (lo hi : Z) :
  In m (calculateAnalystMetrics ticketsData) ->
  (forall t0, hd_error (analystTickets (analyst_id m) ticketsData) = Some t0 ->
     first_response_at t0 <> None) ->
  (forall t fr, In t (analystTickets (analyst_id m) ticketsData) ->
     first_response_at t = Some fr ->
     lo <= Dates.differenceInMinutes fr (created_at t) <= hi) ->
  (inject_Z lo <= avg_response_time m <= inject_Z hi)%Q.
Proof.
  intros Hin Hfirst Hall.
  destruct (perAnalyst_fields _ _ Hin) as (_ & Hne & _ & _ & -> & _).
  destruct (analystTickets (analyst_id m) ticketsData) as [|t0 rest]; [congruence|].
  specialize (Hfirst t0 eq_refl).
  simpl. destruct (first_response_at t0) as [fr|] eqn:E; [|congruence].
  assert (Hs : (inject_Z lo
                <= inject_Z (Dates.differenceInMinutes fr (created_at t0))
                <= inject_Z hi)%Q).
  { destruct (Hall t0 fr (or_introl eq_refl) E) as [H0 H1].
    split; now rewrite <- Zle_Qle. }
  apply running_mean_response_range; [lia | |].
  - change (0 + 1 - 1) with 0. change (0 + 1) with 1.
    rewrite first_sample. exact Hs.
  - intros t f Ht Ef. destruct (Hall t f (or_intror Ht) Ef) as [H0 H1].
    split; now rewrite <- Zle_Qle.
Qed.

Lemma response_average_in_range_when_first_answered_witness :
  let c := Sample.jan1 0 0 in
  let r10 := Sample.ticket c "low" (Some (Sample.jan1 0 10)) None (Some "ana"%string) in
  let open := Sample.ticket c "low" None None (Some "ana"%string) in
  let r30 := Sample.ticket c "low" (Some (Sample.jan1 0 30)) None (Some "ana"%string) in
  let l := [r10; open; r30] in
  let m := hd (fresh_metrics "" open) (calculateAnalystMetrics l) in
  (inject_Z 10 <= avg_response_time m <= inject_Z 30)%Q.
Proof.
  intros c r10 open r30 l m.
  apply (response_average_in_range_when_first_answered l m 10 30).
  - vm_compute. left. reflexivity.
  - intros t0 E. vm_compute in E. injection E as <-. discriminate.
  - intros t fr Ht E. vm_compute in Ht.
    destruct Ht as [<-|[<-|[<-|[]]]]; try discriminate E;
      injection E as <-; vm_compute; split; discriminate.
Defined.

End AverageRanges.
